(** * godwoken-web3: the Godwoken RPC wrapper, its error translator,
      the Polyjuice system-log decoder and the net_* methods

    A shallow embedding of [Gw], [parsePolyjuiceSystemLog] and [parseError]
    (the TypeScript module importing ckb-js-toolkit and web3-eth-abi) and of
    [Net] (lib/methods/modules/net.js), with the properties of the
    specification proved about them.

    JavaScript values are an inductive type, exceptions are a second one and
    a computation that may throw is a [result].  What the modules import and
    do not define themselves (the JSON object, the ABI coder, the upstream
    RPC handle, [middleware], the request-error code, the hosting server) is
    gathered in an interface, so that every theorem holds for any
    implementation of it; a reference implementation is given as well, to
    run the definitions on concrete inputs. *)

From Stdlib Require Import ZArith String Ascii List Lia Bool DecimalString.
From stdpp Require Import base tactics option list.
Import ListNotations.

Local Open Scope string_scope.
Local Open Scope Z_scope.

Set Warnings "-register-all".

(** ** JavaScript values, exceptions and results *)

Module JS.

(** The values the code handles.  [VObject] lists the property definitions
    of an object in order: a later definition of a key overrides an earlier
    one, as [JSON.parse] does with duplicate keys.  Numbers are the integer
    ones; no function is a value. *)
Inductive value : Type :=
| VUndefined
| VNull
| VBool (b : bool)
| VNumber (n : Z)
| VString (s : string)
| VArray (items : list value)
| VObject (fields : list (string * value)).

(** What a [throw] carries.  [RpcError code message] is
    [new RpcError(code, message)], [Error message] is [new Error(message)];
    the three others are the built-in errors of the engine and of Node.js,
    whose message texts are not modelled. *)
Inductive exn : Type :=
| RpcError (code : value) (message : string)
| Error (message : string)
| TypeError
| SyntaxError
| RangeError.

(** A computation either returns or throws. *)
Inductive result (A : Type) : Type :=
| Return (a : A)
| Throw (e : exn).

Arguments Return {A} a.
Arguments Throw {A} e.

(** Sequencing: the first [throw] ends the computation. *)
#[export] Instance result_ret : MRet result := fun A a => Return a.

#[export] Instance result_bind : MBind result := fun A B k c =>
  match c with
  | Return a => k a
  | Throw e => Throw e
  end.

(** The outcome of awaiting a promise: fulfilled with a value, or rejected
    with whatever was thrown (any value; an [Error] object is seen through
    its properties). *)
Inductive settled : Type :=
| Fulfilled (v : value)
| Rejected (reason : value).

(** [lookup_field key fields]: the last definition of [key], if any. *)
Fixpoint lookup_field (key : string) (fields : list (string * value))
  : option value :=
  match fields with
  | [] => None
  | (k, v) :: rest =>
      match lookup_field key rest with
      | Some v' => Some v'
      | None => if String.eqb k key then Some v else None
      end
  end.

(** Property read [v.key], for the keys the modules read ([message],
    [data], [last_log], [return_data], [code]): none of them names a
    built-in property of a string, number, boolean or array, so the read
    gives [undefined] there; reading a property of [undefined] or [null]
    throws a TypeError. *)
Definition get (v : value) (key : string) : result value :=
  match v with
  | VUndefined | VNull => Throw TypeError
  | VObject fields =>
      Return (match lookup_field key fields with
              | Some x => x
              | None => VUndefined
              end)
  | _ => Return VUndefined
  end.

(** [s.slice(n)] and [s.substring(n)] of a string, for a literal [n >= 0]:
    the characters from index [n] on, none when [n] is past the end. *)
Fixpoint string_from (n : nat) (s : string) : string :=
  match n, s with
  | O, _ => s
  | S n', String _ rest => string_from n' rest
  | S _, EmptyString => EmptyString
  end.

(** Method call [v.slice(n)]: a string and an array have the method; on
    anything else the property is absent or not a function, and the call
    throws a TypeError. *)
Definition slice (v : value) (n : nat) : result value :=
  match v with
  | VString s => Return (VString (string_from n s))
  | VArray items => Return (VArray (skipn n items))
  | _ => Throw TypeError
  end.

(** Method call [v.substring(n)]: only a string has the method. *)
Definition substring (v : value) (n : nat) : result string :=
  match v with
  | VString s => Return (string_from n s)
  | _ => Throw TypeError
  end.

(** [s.repeat(n)]. *)
Fixpoint string_repeat (s : string) (n : nat) : string :=
  match n with
  | O => EmptyString
  | S n' => s ++ string_repeat s n'
  end.

(** Modelled from the spec: the error module is not part of the sources;
    an [RpcError] carries the code it was built with, next to its message
    (the wire format [{code, message}] of the specification), and no other
    error has a code. *)
Definition code_of (e : exn) : option value :=
  match e with
  | RpcError code _ => Some code
  | _ => None
  end.

(** The message an error was built with, for the two kinds the module
    builds. *)
Definition message_of (e : exn) : option string :=
  match e with
  | RpcError _ message => Some message
  | Error message => Some message
  | _ => None
  end.

(** Decimal text of a length, as a template literal prints it. *)
Definition decimal (n : nat) : string :=
  NilEmpty.string_of_uint (Nat.to_uint n).

End JS.

Import JS.

(** ** Node.js buffers *)

Module Buffer.

(** A buffer is the list of its bytes, each in [0, 256). *)
Abbreviation t := (list Z) (only parsing).

Definition is_byte (b : Z) : Prop := 0 <= b < 256.

(** Value of a hexadecimal digit, as the hex decoder's table has it. *)
Definition unhex (c : ascii) : option Z :=
  let n := Z.of_N (N_of_ascii c) in
  if (48 <=? n) && (n <=? 57) then Some (n - 48)
  else if (65 <=? n) && (n <=? 70) then Some (n - 55)
  else if (97 <=? n) && (n <=? 102) then Some (n - 87)
  else None.

(** [Buffer.from(s, "hex")]: the digits are read two by two, decoding stops
    at the first pair that is not two hexadecimal digits, and a last lone
    character is dropped. *)
Fixpoint from_hex (s : string) : t :=
  match s with
  | String a (String b rest) =>
      match unhex a, unhex b with
      | Some hi, Some lo => (16 * hi + lo) :: from_hex rest
      | _, _ => []
      end
  | _ => []
  end.

Definition hexdigit (d : Z) : ascii :=
  match d with
  | 0 => "0" | 1 => "1" | 2 => "2" | 3 => "3" | 4 => "4" | 5 => "5"
  | 6 => "6" | 7 => "7" | 8 => "8" | 9 => "9" | 10 => "a" | 11 => "b"
  | 12 => "c" | 13 => "d" | 14 => "e" | _ => "f"
  end%char.

(** [buf.toString("hex")]: two lower-case digits per byte. *)
Fixpoint to_hex (buf : t) : string :=
  match buf with
  | [] => EmptyString
  | b :: rest => String (hexdigit (b / 16)) (String (hexdigit (b mod 16)) (to_hex rest))
  end.

(** [buf.slice(start, end)] for literal bounds [0 <= start <= end]. *)
Definition slice (buf : t) (start stop : nat) : t :=
  firstn (stop - start) (skipn start buf).

(** [buf[i]] where the index is known to be in range. *)
Definition at_ (buf : t) (i : nat) : Z := default 0 (buf !! i).

(** [buf.readUInt32LE(offset)], as lib/internal/buffer.js computes it: the
    first and the last byte are read first and an out-of-range error is
    raised when either is undefined. *)
Definition readUInt32LE (buf : t) (offset : nat) : result Z :=
  match buf !! offset, buf !! (offset + 3)%nat with
  | Some first, Some last =>
      Return (first
              + at_ buf (offset + 1) * 2 ^ 8
              + at_ buf (offset + 2) * 2 ^ 16
              + last * 2 ^ 24)
  | _, _ => Throw RangeError
  end.

(** [buf.readBigUInt64LE(offset)], likewise: two 32-bit halves, the high
    one shifted left by 32. *)
Definition readBigUInt64LE (buf : t) (offset : nat) : result Z :=
  match buf !! offset, buf !! (offset + 7)%nat with
  | Some first, Some last =>
      let lo := first
                + at_ buf (offset + 1) * 2 ^ 8
                + at_ buf (offset + 2) * 2 ^ 16
                + at_ buf (offset + 3) * 2 ^ 24 in
      let hi := at_ buf (offset + 4)
                + at_ buf (offset + 5) * 2 ^ 8
                + at_ buf (offset + 6) * 2 ^ 16
                + last * 2 ^ 24 in
      Return (lo + Z.shiftl hi 32)
  | _, _ => Throw RangeError
  end.

(** The specification's reading of a field: the unsigned little-endian
    integer of a run of bytes, the first byte being the least significant. *)
Fixpoint little_endian (bytes : t) : Z :=
  match bytes with
  | [] => 0
  | b :: rest => b + 256 * little_endian rest
  end.

End Buffer.

(** ** What the Godwoken module imports *)

(** A method of the wrapper takes the argument list and, once awaited,
    returns a value or throws. *)
Definition method : Type := list value -> result value.

(** The names the module uses and does not define:
    - [JSON_parse] is [JSON.parse] on a string, [None] standing for its
      SyntaxError; [JSON_stringify] is [JSON.stringify] on an object;
    - [decodeParameter] is the ABI coder of web3-eth-abi, which returns the
      decoded value or throws;
    - [Buffer_from_array] is [Buffer.from] on an array, which converts each
      entry to a byte;
    - [GW_RPC_REQUEST_ERROR] is the constant of the error-code module;
    - [rpc name args] is the awaited outcome of [this.rpc.name(...args)], a
      JSON-RPC call of the ckb-js-toolkit handle to the upstream node;
    - [middleware] is the wrapper of the validator module. *)
Class Imports : Type := {
  JSON_parse : string -> option value;
  JSON_stringify : value -> string;
  decodeParameter : string -> string -> result value;
  Buffer_from_array : list value -> result Buffer.t;
  GW_RPC_REQUEST_ERROR : Z;
  rpc : string -> list value -> settled;
  middleware : method -> nat -> method
}.

(** [JSON.parse(s)] as a computation. *)
Definition parse `{Imports} (s : string) : result value :=
  match JSON_parse s with
  | Some v => Return v
  | None => Throw SyntaxError
  end.

(** [Buffer.from(v, "hex")]: a string is decoded as hexadecimal digits, an
    array is converted entry by entry; [v] is the result of [slice] here,
    so it is one of the two. *)
Definition Buffer_from `{Imports} (v : value) : result Buffer.t :=
  match v with
  | VString s => Return (Buffer.from_hex s)
  | VArray items => Buffer_from_array items
  | _ => Throw TypeError
  end.

(** ** The system-log decoder *)

Record PolyjuiceSystemLog : Type := {
  gasUsed : Z;
  cumulativeGasUsed : Z;
  createdAddress : string;
  statusCode : Z
}.

Definition parsePolyjuiceSystemLog `{Imports} (logItem : value)
  : result PolyjuiceSystemLog :=
  data ← get logItem "data";
  hex ← JS.slice data 2;
  buf ← Buffer_from hex;
  if negb (length buf =? 8 + 8 + 16 + 4 + 4)%nat then
    Throw (Error ("invalid system log raw data length: " ++ decimal (length buf)))
  else
    gasUsed ← Buffer.readBigUInt64LE buf 0;
    cumulativeGasUsed ← Buffer.readBigUInt64LE buf 8;
    let createdAddress := "0x" ++ Buffer.to_hex (Buffer.slice buf 16 32) in
    statusCode ← Buffer.readUInt32LE buf 32;
    Return {| gasUsed := gasUsed;
              cumulativeGasUsed := cumulativeGasUsed;
              createdAddress := createdAddress;
              statusCode := statusCode |}.

(** The buffer the decoder builds from a log item whose [data] is the
    string [data]. *)
Definition buffer_of (data : string) : Buffer.t :=
  Buffer.from_hex (string_from 2 data).

(** The error of the length check. *)
Definition length_error (buf : Buffer.t) : exn :=
  Error ("invalid system log raw data length: " ++ decimal (length buf)).

(** The record of the specification's layout table: two unsigned 64-bit
    little-endian integers at offsets 0 and 8, sixteen raw bytes at offset
    16 printed in hexadecimal after "0x", and an unsigned 32-bit
    little-endian integer at offset 32. *)
Definition layout_record (buf : Buffer.t) : PolyjuiceSystemLog :=
  {| gasUsed := Buffer.little_endian (Buffer.slice buf 0 8);
     cumulativeGasUsed := Buffer.little_endian (Buffer.slice buf 8 16);
     createdAddress := "0x" ++ Buffer.to_hex (Buffer.slice buf 16 32);
     statusCode := Buffer.little_endian (Buffer.slice buf 32 36) |}.

(** ** The error translator *)

Definition prefix : string := "JSONRPCError: server error ".

(** The object literal [{status_code, status_reason}]. *)
Definition errorReceipt (status_code : Z) (status_reason : value) : value :=
  VObject [("status_code", VNumber status_code);
           ("status_reason", status_reason)].

(** [error] is whatever the handle threw.  [message.startsWith] throws a
    TypeError unless the message is a string; from then on [message] and
    [error.message] are that string. *)
Definition parseError `{Imports} (error : value) : result unit :=
  message ← get error "message";
  match message with
  | VString text =>
      if String.prefix prefix text then
        let jsonErr := string_from (String.length prefix) text in
        err ← parse jsonErr;
        data ← get err "data";
        last_log ← get data "last_log";
        polyjuiceSystemLog ← parsePolyjuiceSystemLog last_log;
        return_data ← get data "return_data";
        encoded ← substring return_data 10;
        statusReason ← decodeParameter "string" encoded;
        code ← get err "code";
        Throw (RpcError code
                 (JSON_stringify
                    (errorReceipt (statusCode polyjuiceSystemLog) statusReason)))
      else if String.prefix "request to" text then
        Throw (Error text)
      else
        Throw (RpcError (VNumber GW_RPC_REQUEST_ERROR) text)
  | _ => Throw TypeError
  end.

(** The payload of the specification's example: code 5, a system log of
    forty zero bytes, and return data made of "0x", ten zeros and an
    ABI-encoded string. *)
Definition example_payload (abi : string) : value :=
  VObject
    [("code", VNumber 5);
     ("data",
      VObject
        [("last_log", VObject [("data", VString ("0x" ++ string_repeat "00" 40))]);
         ("return_data", VString ("0x" ++ string_repeat "0" 10 ++ abi))])].

(** ** The wrapper class *)

(** [try { const result = await call; return result; }
     catch (error) { parseError(error); }]: were the translator to return,
    the method would return [undefined]. *)
Definition forward `{Imports} (call : settled) : result value :=
  match call with
  | Fulfilled result => Return result
  | Rejected error => parseError error ;; Return VUndefined
  end.

Section GwMethods.
Context `{Imports}.

Definition ping (args : list value) := forward (rpc "gw_ping" args).
Definition get_tip_block_hash (args : list value) :=
  forward (rpc "gw_get_tip_block_hash" args).
Definition get_block_hash (args : list value) :=
  forward (rpc "gw_get_block_hash" args).
Definition get_block (args : list value) := forward (rpc "gw_get_block" args).
Definition get_block_by_number (args : list value) :=
  forward (rpc "gw_get_block_by_number" args).
Definition get_balance (args : list value) :=
  forward (rpc "gw_get_balance" args).
Definition get_storage_at (args : list value) :=
  forward (rpc "gw_get_storage_at" args).
Definition get_account_id_by_script_hash (args : list value) :=
  forward (rpc "gw_get_account_id_by_script_hash" args).
Definition get_nonce (args : list value) := forward (rpc "gw_get_nonce" args).
Definition get_script (args : list value) := forward (rpc "gw_get_script" args).
Definition get_script_hash (args : list value) :=
  forward (rpc "gw_get_script_hash" args).
Definition get_data (args : list value) := forward (rpc "gw_get_data" args).
Definition get_transaction_receipt (args : list value) :=
  forward (rpc "gw_get_transaction_receipt" args).
Definition get_transaction (args : list value) :=
  forward (rpc "gw_get_transaction" args).
Definition execute_l2transaction (args : list value) :=
  forward (rpc "gw_execute_l2transaction" args).
Definition execute_raw_l2transaction (args : list value) :=
  forward (rpc "gw_execute_raw_l2transaction" args).
Definition submit_l2transaction (args : list value) :=
  forward (rpc "gw_submit_l2transaction" args).
Definition submit_withdrawal_request (args : list value) :=
  forward (rpc "gw_submit_withdrawal_request" args).
Definition get_script_hash_by_short_address (args : list value) :=
  forward (rpc "gw_get_script_hash_by_short_address" args).

(** The methods as the class body declares them. *)
Definition Gw_prototype : list (string * method) :=
  [ ("ping", ping);
    ("get_tip_block_hash", get_tip_block_hash);
    ("get_block_hash", get_block_hash);
    ("get_block", get_block);
    ("get_block_by_number", get_block_by_number);
    ("get_balance", get_balance);
    ("get_storage_at", get_storage_at);
    ("get_account_id_by_script_hash", get_account_id_by_script_hash);
    ("get_nonce", get_nonce);
    ("get_script", get_script);
    ("get_script_hash", get_script_hash);
    ("get_data", get_data);
    ("get_transaction_receipt", get_transaction_receipt);
    ("get_transaction", get_transaction);
    ("execute_l2transaction", execute_l2transaction);
    ("execute_raw_l2transaction", execute_raw_l2transaction);
    ("submit_l2transaction", submit_l2transaction);
    ("submit_withdrawal_request", submit_withdrawal_request);
    ("get_script_hash_by_short_address", get_script_hash_by_short_address) ].

(** The object [new Gw()]: the constructor rebinds eighteen of the methods
    through [middleware]; the last one stays the method of the class. *)
Definition Gw : list (string * method) :=
  [ ("ping", middleware ping 0);
    ("get_tip_block_hash", middleware get_tip_block_hash 0);
    ("get_block_hash", middleware get_block_hash 0);
    ("get_block", middleware get_block 0);
    ("get_block_by_number", middleware get_block_by_number 0);
    ("get_balance", middleware get_balance 0);
    ("get_storage_at", middleware get_storage_at 0);
    ("get_account_id_by_script_hash", middleware get_account_id_by_script_hash 0);
    ("get_nonce", middleware get_nonce 0);
    ("get_script", middleware get_script 0);
    ("get_script_hash", middleware get_script_hash 0);
    ("get_data", middleware get_data 0);
    ("get_transaction_receipt", middleware get_transaction_receipt 0);
    ("get_transaction", middleware get_transaction 0);
    ("execute_l2transaction", middleware execute_l2transaction 0);
    ("execute_raw_l2transaction", middleware execute_raw_l2transaction 0);
    ("submit_l2transaction", middleware submit_l2transaction 0);
    ("submit_withdrawal_request", middleware submit_withdrawal_request 0);
    ("get_script_hash_by_short_address", get_script_hash_by_short_address) ].

End GwMethods.

(** ** The net methods *)

Module Net.
Section Net.

(** Modelled from the spec: the hosting server (bin/www), of which the
    module reads the listening state, and the configuration document
    (config/eth.json), of which it reads the chain identifier. *)
Record Server : Type := { isListening : bool }.

Variable Config_chain_id : value.
Variable server : Server.

(** A callback receives an error and a result; [R] is what it does with
    them. *)
Context {R : Type}.

Definition version (args : list value) (callback : value -> value -> R) : R :=
  callback VNull Config_chain_id.

Definition peerCount (args : list value) (callback : value -> value -> R) : R :=
  callback VNull (VNumber 0).

Definition listening (args : list value) (callback : value -> value -> R) : R :=
  callback VNull (VBool (isListening server)).

End Net.
End Net.

(** ** A reference implementation of the imports

    Used to run the definitions above on concrete inputs.  The theorems
    quantify over every implementation of [Imports] and do not depend on
    this one. *)

Module JSON.

Definition code (c : ascii) : Z := Z.of_N (N_of_ascii c).

Definition is_ws (c : ascii) : bool :=
  Ascii.eqb c " " || Ascii.eqb c "009" || Ascii.eqb c "010" || Ascii.eqb c "013".

Fixpoint skip_ws (s : string) : string :=
  match s with
  | String c rest => if is_ws c then skip_ws rest else s
  | EmptyString => s
  end.

Definition digit (c : ascii) : option Z :=
  let n := code c in
  if (48 <=? n) && (n <=? 57) then Some (n - 48) else None.

(** The digits at the head of [s], read in base ten after [acc]. *)
Fixpoint digits (acc : Z) (s : string) : Z * string :=
  match s with
  | String c rest =>
      match digit c with
      | Some d => digits (10 * acc + d) rest
      | None => (acc, s)
      end
  | EmptyString => (acc, s)
  end.

(** A number without sign: [0], or digits not starting with [0]; a fraction
    or an exponent is outside the integer fragment and not read. *)
Definition unsigned (s : string) : option (Z * string) :=
  match s with
  | String c rest =>
      match digit c with
      | Some 0 => Some (0, rest)
      | Some d => Some (digits d rest)
      | None => None
      end
  | EmptyString => None
  end.

Definition integral (r : string) : bool :=
  match r with
  | String c _ => negb (Ascii.eqb c "." || Ascii.eqb c "e" || Ascii.eqb c "E")
  | EmptyString => true
  end.

Definition number (s : string) : option (Z * string) :=
  '(n, r) ← match s with
            | String "-" rest => '(n, r) ← unsigned rest; Some (- n, r)
            | _ => unsigned s
            end;
  if integral r then Some (n, r) else None.

Definition unescape (c : ascii) : option ascii :=
  (if Ascii.eqb c "034" then Some "034"
   else if Ascii.eqb c "\" then Some "\"
   else if Ascii.eqb c "/" then Some "/"
   else if Ascii.eqb c "b" then Some "008"
   else if Ascii.eqb c "f" then Some "012"
   else if Ascii.eqb c "n" then Some "010"
   else if Ascii.eqb c "r" then Some "013"
   else if Ascii.eqb c "t" then Some "009"
   else None)%char.

(** The characters of a string literal after its opening quote, up to the
    closing one.  An escape [\u00XX] gives the character of that code;
    higher code units are outside the fragment. *)
Fixpoint string_body (s : string) : option (string * string) :=
  match s with
  | EmptyString => None
  | String c rest =>
      if Ascii.eqb c "034" then Some (EmptyString, rest)
      else if Ascii.eqb c "\" then
        match rest with
        | String "u" (String "0" (String "0" (String h (String l rest')))) =>
            hi ← Buffer.unhex h;
            lo ← Buffer.unhex l;
            '(body, r) ← string_body rest';
            Some (String (ascii_of_N (Z.to_N (16 * hi + lo))) body, r)
        | String e rest' =>
            ch ← unescape e;
            '(body, r) ← string_body rest';
            Some (String ch body, r)
        | EmptyString => None
        end
      else if code c <? 32 then None
      else '(body, r) ← string_body rest; Some (String c body, r)
  end.

Definition literal (word : string) (v : value) (s : string)
  : option (value * string) :=
  if String.prefix word s then Some (v, string_from (String.length word) s)
  else None.

Fixpoint element (fuel : nat) (s : string) : option (value * string) :=
  match fuel with
  | O => None
  | S fuel =>
      match skip_ws s with
      | String "n" _ as t => literal "null" VNull t
      | String "t" _ as t => literal "true" (VBool true) t
      | String "f" _ as t => literal "false" (VBool false) t
      | String "034" rest =>
          '(text, r) ← string_body rest; Some (VString text, r)
      | String "[" rest =>
          match skip_ws rest with
          | String "]" r => Some (VArray [], r)
          | _ => '(items, r) ← elements fuel rest; Some (VArray items, r)
          end
      | String "{" rest =>
          match skip_ws rest with
          | String "}" r => Some (VObject [], r)
          | _ => '(fields, r) ← members fuel rest; Some (VObject fields, r)
          end
      | t => '(n, r) ← number t; Some (VNumber n, r)
      end
  end
with elements (fuel : nat) (s : string) : option (list value * string) :=
  match fuel with
  | O => None
  | S fuel =>
      '(v, r) ← element fuel s;
      match skip_ws r with
      | String "," r' => '(vs, r'') ← elements fuel r'; Some (v :: vs, r'')
      | String "]" r' => Some ([v], r')
      | _ => None
      end
  end
with members (fuel : nat) (s : string)
  : option (list (string * value) * string) :=
  match fuel with
  | O => None
  | S fuel =>
      match skip_ws s with
      | String "034" rest =>
          '(key, r) ← string_body rest;
          match skip_ws r with
          | String ":" r' =>
              '(v, r'') ← element fuel r';
              match skip_ws r'' with
              | String "," r3 =>
                  '(fields, r4) ← members fuel r3; Some ((key, v) :: fields, r4)
              | String "}" r3 => Some ([(key, v)], r3)
              | _ => None
              end
          | _ => None
          end
      | _ => None
      end
  end.

(** [JSON.parse] on the integer fragment: one value, with white space
    around it and nothing else. *)
Definition parse (s : string) : option value :=
  '(v, r) ← element (2 * String.length s + 2) s;
  match skip_ws r with
  | EmptyString => Some v
  | _ => None
  end.

End JSON.

Module JSON_print.

Definition quote_char (c : ascii) : string :=
  (if Ascii.eqb c "034" then String "\" (String "034" EmptyString)
   else if Ascii.eqb c "\" then "\\"
   else if Ascii.eqb c "008" then "\b"
   else if Ascii.eqb c "012" then "\f"
   else if Ascii.eqb c "010" then "\n"
   else if Ascii.eqb c "013" then "\r"
   else if Ascii.eqb c "009" then "\t"
   else if (JSON.code c <? 32)%Z then
     "\u00" ++ String (Buffer.hexdigit (JSON.code c / 16)%Z)
                 (String (Buffer.hexdigit (JSON.code c mod 16)%Z) EmptyString)
   else String c EmptyString)%string.

Fixpoint quote_body (s : string) : string :=
  match s with
  | EmptyString => EmptyString
  | String c rest => quote_char c ++ quote_body rest
  end.

Definition quote (s : string) : string :=
  String "034" (quote_body s ++ String "034" EmptyString).

Definition comma (first : bool) : string :=
  if first then EmptyString else ",".

(** [JSON.stringify] on the integer fragment, for objects whose keys are
    neither repeated nor array indices: a property whose value is
    [undefined] is left out, an [undefined] array entry is printed [null]. *)
Fixpoint stringify (v : value) : string :=
  match v with
  | VUndefined | VNull => "null"
  | VBool true => "true"
  | VBool false => "false"
  | VNumber n => NilEmpty.string_of_int (Z.to_int n)
  | VString s => quote s
  | VArray items =>
      "[" ++ (fix entries (first : bool) (l : list value) : string :=
                match l with
                | [] => EmptyString
                | x :: rest => comma first ++ stringify x ++ entries false rest
                end) true items ++ "]"
  | VObject fields =>
      "{" ++ (fix properties (first : bool) (l : list (string * value)) : string :=
                match l with
                | [] => EmptyString
                | (_, VUndefined) :: rest => properties first rest
                | (k, x) :: rest =>
                    comma first ++ quote k ++ ":" ++ stringify x
                    ++ properties false rest
                end) true fields ++ "}"
  end.

End JSON_print.

Module Abi.

(** The bytes of a string of hexadecimal digit pairs; anything else is not
    accepted. *)
Fixpoint arrayify (s : string) : option Buffer.t :=
  match s with
  | EmptyString => Some []
  | String a (String b rest) =>
      hi ← Buffer.unhex a;
      lo ← Buffer.unhex b;
      bytes ← arrayify rest;
      Some ((16 * hi + lo) :: bytes)
  | String _ EmptyString => None
  end.

(** [s.replace(/0x/i, empty)]: the first "0x" or "0X" is taken out. *)
Fixpoint remove_0x (s : string) : string :=
  match s with
  | String "0" (String x rest as tail) =>
      if (Ascii.eqb x "x" || Ascii.eqb x "X")%char then rest
      else String "0" (remove_0x tail)
  | String c rest => String c (remove_0x rest)
  | EmptyString => EmptyString
  end.

(** The 32-byte big-endian word at [offset]. *)
Definition word (data : Buffer.t) (offset : nat) : option Z :=
  let w := firstn 32 (skipn offset data) in
  if (length w =? 32)%nat then Some (fold_left (fun acc b => 256 * acc + b) w 0)
  else None.

(** The text of ASCII bytes. *)
Fixpoint ascii_text (bytes : Buffer.t) : option string :=
  match bytes with
  | [] => Some EmptyString
  | b :: rest =>
      if b <? 128 then
        text ← ascii_text rest; Some (String (ascii_of_N (Z.to_N b)) text)
      else None
  end.

Definition out_of_bounds : exn := Error "data out-of-bounds".

(** [decodeParameter("string", encoded)] for a payload of ASCII characters:
    the head word is the offset of the string, whose length word is
    followed by its bytes, padded to a multiple of 32.  The texts of the
    errors are shortened, other types are not decoded and a payload that is
    not ASCII is refused. *)
Definition decodeParameter (type encoded : string) : result value :=
  if negb (String.eqb type "string") then Throw (Error "type not decoded")
  else if String.eqb encoded EmptyString || String.eqb encoded "0x" || String.eqb encoded "0X"
  then Throw (Error "Returned values aren't valid, did it run Out of Gas?")
  else
    match arrayify (remove_0x encoded) with
    | None => Throw (Error "invalid arrayify value")
    | Some data =>
        let size := Z.of_nat (length data) in
        match word data 0 with
        | None => Throw out_of_bounds
        | Some offset =>
            if size <? offset then Throw out_of_bounds
            else
              match word data (Z.to_nat offset) with
              | None => Throw out_of_bounds
              | Some len =>
                  let aligned := 32 * ((len + 31) / 32) in
                  if size <? offset + 32 + aligned then Throw out_of_bounds
                  else
                    let payload :=
                      firstn (Z.to_nat len) (skipn (Z.to_nat offset + 32) data) in
                    match ascii_text payload with
                    | None => Throw (Error "payload not decoded")
                    | Some text =>
                        Return (if String.eqb text "0x" then VNull
                                else VString text)
                    end
              end
        end
    end.

End Abi.

Module Reference.

(** [Buffer.from] on an array of numbers: each is reduced modulo 256.
    Entries that are not numbers count as 0 here. *)
Definition from_array (items : list value) : result Buffer.t :=
  Return (map (fun v => match v with VNumber n => n mod 256 | _ => 0 end) items).

Definition connection_error : value :=
  VObject [("message",
            VString "request to http://localhost:8119/ failed, reason: connect ECONNREFUSED 127.0.0.1:8119")].

Definition method_not_found : value :=
  VObject [("message", VString "method not found")].

(** A sample upstream node: it answers [gw_ping] and the tip block hash,
    cannot be reached for [gw_get_block] and rejects every other call. *)
Definition node (name : string) (args : list value) : settled :=
  if String.eqb name "gw_ping" then Fulfilled (VString "pong")
  else if String.eqb name "gw_get_tip_block_hash" then
    Fulfilled (VString "0x2a")
  else if String.eqb name "gw_get_block" then Rejected connection_error
  else Rejected method_not_found.

(** Modelled from the spec: [middleware] of the validator module, with no
    local validation: the arguments are passed through as they are. *)
Definition pass_through (m : method) (requiredParamsCount : nat) : method := m.

(** Modelled from the spec: the generic request-error code of the
    error-code module; the spec fixes no number and this one is a sample. *)
Definition request_error : Z := -32099.

(** Sample log items: a 40-byte record, the same record with other bytes
    at offsets 36 to 39, and a record one byte short. *)
Definition log_data : string :=
  "0x" ++ "1027000000000000" ++ "204e000000000000"
       ++ "00112233445566778899aabbccddeeff" ++ "02000000" ++ "00000000".

Definition log_data' : string :=
  "0x" ++ "1027000000000000" ++ "204e000000000000"
       ++ "00112233445566778899aabbccddeeff" ++ "02000000" ++ "deadbeef".

Definition short_log_data : string := "0x" ++ string_repeat "00" 39.

Definition log_item (data : string) : value :=
  VObject [("account_id", VString "0x2"); ("service_flag", VString "0x2");
           ("data", VString data)].

(** The ABI encoding of the string "hello". *)
Definition hello_abi : string :=
  "0000000000000000000000000000000000000000000000000000000000000020"
  ++ "0000000000000000000000000000000000000000000000000000000000000005"
  ++ "68656c6c6f000000000000000000000000000000000000000000000000000000".

(** A revert as the upstream reports it: the sample log, and return data
    made of a four-byte selector and the encoded reason. *)
Definition revert_data : value :=
  VObject [("last_log", log_item log_data);
           ("return_data", VString ("0x08c379a0" ++ hello_abi))].

Definition revert_payload : value :=
  VObject [("code", VNumber 3);
           ("message", VString "execution reverted");
           ("data", revert_data)].

(** The message of the error the handle throws for it. *)
Definition revert_message : string :=
  prefix ++ JSON_print.stringify revert_payload.

(** A payload whose [data] has no system log. *)
Definition no_log_payload : value :=
  VObject [("code", VNumber 5); ("data", VObject [])].

Definition error_of (message : string) : value :=
  VObject [("message", VString message)].

Definition imports : Imports :=
  Build_Imports JSON.parse JSON_print.stringify Abi.decodeParameter
    from_array request_error node pass_through.

End Reference.

(** ** The tracing bootstrap scripts

    trace.js, opentelemetry.js and the script that follows the Godwoken
    module start the tracing SDK and, on SIGTERM, shut it down and leave.
    What a script does is seen through its effects: the lines it logs and
    the exit of the process.  The SDK is not modelled: how the promises of
    [sdk.start()] and [sdk.shutdown()] settle is the input.
    opentelemetry_trace.js is left out: it reads [exporter], [options] and
    [WinstonInstrumentation], which it never declares, so it throws when it
    is loaded, before it starts the SDK or registers a handler. *)

Module Telemetry.

Inductive effect : Type :=
| Log (args : list value)
| Exit (code : Z).

(** How a callback ends: it returns, it throws, or the process is gone. *)
Inductive completion : Type :=
| Returned (v : value)
| Threw (reason : value)
| Halted.

(** A callback takes the value the promise settled with. *)
Definition callback : Type := value -> list effect * completion.

(** [console.log(...args)] writes a line and returns [undefined]. *)
Definition console_log (args : list value) : list effect * completion :=
  ([Log args], Returned VUndefined).

(** [process.exit(code)] ends the process: nothing runs after it. *)
Definition process_exit (code : Z) : list effect * completion :=
  ([Exit code], Halted).

(** A promise chain so far: the effects of its callbacks and the outcome of
    its last promise, [None] once the process has exited. *)
Definition chain : Type := list effect * option settled.

Definition promise (outcome : settled) : chain := ([], Some outcome).

(** The promise a callback's completion resolves. *)
Definition resolve (c : completion) : option settled :=
  match c with
  | Returned v => Some (Fulfilled v)
  | Threw reason => Some (Rejected reason)
  | Halted => None
  end.

(** [p.then(f)]: [f] runs on fulfilment; a rejection passes through. *)
Definition then_ (p : chain) (f : callback) : chain :=
  match p with
  | (effects, Some (Fulfilled v)) =>
      let '(more, c) := f v in ((effects ++ more)%list, resolve c)
  | _ => p
  end.

(** [p.catch(f)]: [f] runs on rejection; a fulfilment passes through. *)
Definition catch_ (p : chain) (f : callback) : chain :=
  match p with
  | (effects, Some (Rejected reason)) =>
      let '(more, c) := f reason in ((effects ++ more)%list, resolve c)
  | _ => p
  end.

(** [p.finally(f)]: [f] runs either way, without argument, and the outcome
    of [p] is kept unless [f] throws. *)
Definition finally_ (p : chain) (f : callback) : chain :=
  match p with
  | (effects, Some outcome) =>
      let '(more, c) := f VUndefined in
      ((effects ++ more)%list,
       match c with
       | Returned _ => Some outcome
       | Threw reason => Some (Rejected reason)
       | Halted => None
       end)
  | _ => p
  end.

(** trace.js, and the same script after the Godwoken module. *)
Module Trace.

Definition start (sdk_start : settled) : chain :=
  catch_
    (then_ (promise sdk_start)
       (fun _ => console_log [VString "Tracing initialized"]))
    (fun error => console_log [VString "Error initializing tracing"; error]).

Definition on_SIGTERM (sdk_shutdown : settled) : chain :=
  finally_
    (catch_
       (then_ (promise sdk_shutdown)
          (fun _ => console_log [VString "Tracing terminated"]))
       (fun error => console_log [VString "Error terminating tracing"; error]))
    (fun _ => process_exit 0).

End Trace.

(** opentelemetry.js. *)
Module Opentelemetry.

Definition start (sdk_start : settled) : chain :=
  catch_
    (then_ (promise sdk_start)
       (fun _ => console_log [VString "Opentelemetry tracing initialized"]))
    (fun error =>
       console_log [VString "Error initializing opentelemetry tracing"; error]).

Definition on_SIGTERM (sdk_shutdown : settled) : chain :=
  finally_
    (catch_
       (then_ (promise sdk_shutdown)
          (fun _ => console_log [VString "Opentelemetry Tracing terminated"]))
       (fun error =>
          console_log [VString "Error terminating opentelemetry tracing"; error]))
    (fun _ => process_exit 0).

End Opentelemetry.

End Telemetry.

(** ** Predicates on decoded records *)

(** A lower-case hexadecimal digit. *)
Definition is_lower_hex (c : ascii) : bool :=
  let n := Z.of_N (N_of_ascii c) in
  (48 <=? n) && (n <=? 57) || (97 <=? n) && (n <=? 102).

Fixpoint string_forallb (p : ascii -> bool) (s : string) : bool :=
  match s with
  | EmptyString => true
  | String c rest => p c && string_forallb p rest
  end.

(** Whether a value is a string. *)
Definition is_string (v : value) : bool :=
  match v with
  | VString _ => true
  | _ => false
  end.

(** More sample inputs. *)
Module Samples.

(** The sample record written with upper-case digits, without the "0x",
    and followed by text that is not hexadecimal. *)
Definition shouted_log_data : string :=
  "##" ++ "1027000000000000" ++ "204E000000000000"
       ++ "00112233445566778899AABBCCDDEEFF" ++ "02000000" ++ "00000000"
       ++ "; end of log".

(** The sample record in lower case, after two characters that are not
    "0x" and before text that is not hexadecimal. *)
Definition noisy_log_data : string :=
  "##" ++ "1027000000000000" ++ "204e000000000000"
       ++ "00112233445566778899aabbccddeeff" ++ "02000000" ++ "00000000"
       ++ "; end of log".

(** The bytes of the sample record. *)
Definition log_bytes : Buffer.t :=
  [16; 39; 0; 0; 0; 0; 0; 0; 32; 78; 0; 0; 0; 0; 0; 0;
   0; 17; 34; 51; 68; 85; 102; 119; 136; 153; 170; 187; 204; 221; 238; 255;
   2; 0; 0; 0; 0; 0; 0; 0].

(** A log item whose data is an array of numbers, two entries and then the
    bytes of the sample record. *)
Definition array_log_item : value :=
  VObject [("data", VArray (VNumber 48 :: VNumber 120 :: map VNumber log_bytes))].

(** A revert whose system log is one byte short. *)
Definition short_log_payload : value :=
  VObject [("code", VNumber 3);
           ("data", VObject [("last_log", Reference.log_item Reference.short_log_data)])].

(** A revert without return data. *)
Definition no_return_payload : value :=
  VObject [("code", VNumber 3);
           ("data", VObject [("last_log", Reference.log_item Reference.log_data)])].

(** A revert whose return data is the empty "0x". *)
Definition empty_return_payload : value :=
  VObject [("code", VNumber 3);
           ("data", VObject [("last_log", Reference.log_item Reference.log_data);
                             ("return_data", VString "0x")])].

(** A revert without code. *)
Definition no_code_payload : value :=
  VObject [("data", Reference.revert_data)].

(** The sample revert with another log: only the status code is the same. *)
Definition other_log_data : string :=
  "0x" ++ "ffffffffffffffff" ++ "0100000000000000"
       ++ "ffeeddccbbaa99887766554433221100" ++ "02000000" ++ "01020304".

Definition other_revert_payload : value :=
  VObject [("code", VNumber 3);
           ("data",
            VObject [("last_log", Reference.log_item other_log_data);
                     ("return_data",
                      VString ("0x08c379a0" ++ Reference.hello_abi))])].

(** The connection error as a richer object: the translator reads its
    message only. *)
Definition fetch_error : value :=
  VObject [("name", VString "FetchError");
           ("message",
            VString "request to http://localhost:8119/ failed, reason: connect ECONNREFUSED 127.0.0.1:8119");
           ("type", VString "system");
           ("code", VString "ECONNREFUSED")].

End Samples.

(** * Properties *)

(** ** Sequencing *)

Lemma bind_Return {A B : Type} (a : A) (k : A -> result B) :
  (x ← Return a; k x) = k a.
Proof. reflexivity. Qed.

Lemma bind_Throw {A B : Type} (e : exn) (k : A -> result B) :
  (x ← Throw e; k x) = Throw e.
Proof. reflexivity. Qed.

(** A computation that ends in a [throw] whatever happens before never
    returns. *)
Lemma bind_throws {A B : Type} (c : result A) (k : A -> result B) :
  (forall a, exists e, k a = Throw e) -> exists e, (x ← c; k x) = Throw e.
Proof.
  intros Hk. destruct c as [a | e].
  - rewrite bind_Return. apply Hk.
  - exists e. reflexivity.
Qed.

(** ** Strings *)

Lemma prefix_nil (s : string) : String.prefix EmptyString s = true.
Proof. destruct s; reflexivity. Qed.

Lemma prefix_cons (a b : ascii) (p s : string) :
  String.prefix (String a p) (String b s) = Ascii.eqb a b && String.prefix p s.
Proof.
  change (String.prefix (String a p) (String b s))
    with (if ascii_dec a b then String.prefix p s else false).
  destruct (ascii_dec a b) as [-> | Hne].
  - rewrite Ascii.eqb_refl. reflexivity.
  - apply Ascii.eqb_neq in Hne. rewrite Hne. reflexivity.
Qed.

Lemma prefix_app (p s : string) : String.prefix p (p ++ s) = true.
Proof.
  induction p as [| c p IH].
  - apply prefix_nil.
  - change (String c p ++ s) with (String c (p ++ s)).
    rewrite prefix_cons, Ascii.eqb_refl. exact IH.
Qed.

Lemma string_from_app (p s : string) : string_from (String.length p) (p ++ s) = s.
Proof. induction p as [| c p IH]; simpl; [reflexivity | exact IH]. Qed.

(** ** Hexadecimal digits and buffers *)

Section BufferFacts.

Import Buffer.

Lemma unhex_range (c : ascii) (d : Z) : unhex c = Some d -> 0 <= d < 16.
Proof.
  unfold unhex. intros Hd.
  repeat match type of Hd with
         | (if ?b then _ else _) = _ => destruct b eqn:?
         end; inversion Hd; subst; lia.
Qed.

Lemma unhex_hexdigit (d : Z) : 0 <= d < 16 -> unhex (hexdigit d) = Some d.
Proof.
  intros Hd.
  assert (Hcases : d = 0 \/ d = 1 \/ d = 2 \/ d = 3 \/ d = 4 \/ d = 5 \/ d = 6
                   \/ d = 7 \/ d = 8 \/ d = 9 \/ d = 10 \/ d = 11 \/ d = 12
                   \/ d = 13 \/ d = 14 \/ d = 15) by lia.
  repeat (destruct Hcases as [-> | Hcases]; [reflexivity |]).
  subst d. reflexivity.
Qed.

(** Induction on a string two characters at a time. *)
Lemma string_pair_ind (P : string -> Prop) :
  P EmptyString ->
  (forall a, P (String a EmptyString)) ->
  (forall a b rest, P rest -> P (String a (String b rest))) ->
  forall s, P s.
Proof.
  intros Hnil Hone Hpair.
  fix IH 1. intros [| a [| b rest]].
  - exact Hnil.
  - apply Hone.
  - apply Hpair, IH.
Qed.

Lemma from_hex_is_byte (s : string) : Forall is_byte (from_hex s).
Proof.
  induction s as [| a | a b rest IH] using string_pair_ind; simpl; try constructor.
  destruct (unhex a) as [hi |] eqn:Ha; [| constructor].
  destruct (unhex b) as [lo |] eqn:Hb; [| constructor].
  constructor; [| exact IH].
  apply unhex_range in Ha, Hb. unfold is_byte. lia.
Qed.

(** Decoding the digits of a buffer gives the buffer back. *)
Lemma from_hex_to_hex (buf : t) : Forall is_byte buf -> from_hex (to_hex buf) = buf.
Proof.
  induction 1 as [| b rest Hb _ IH]; simpl; [reflexivity |].
  unfold is_byte in Hb.
  rewrite !unhex_hexdigit.
  - rewrite IH. f_equal. pose proof (Z.div_mod b 16). lia.
  - apply Z.mod_pos_bound. lia.
  - split; [apply Z.div_pos; lia | apply Z.div_lt_upper_bound; lia].
Qed.

Lemma to_hex_length (buf : t) : String.length (to_hex buf) = (2 * length buf)%nat.
Proof. induction buf as [| b rest IH]; simpl; [reflexivity | rewrite IH; lia]. Qed.

Lemma slice_is_byte (buf : t) (start stop : nat) :
  Forall is_byte buf -> Forall is_byte (slice buf start stop).
Proof. intros Hbuf. unfold slice. apply Forall_take, Forall_drop, Hbuf. Qed.

Lemma slice_length (buf : t) (start stop : nat) :
  (stop <= length buf)%nat -> length (slice buf start stop) = (stop - start)%nat.
Proof. intros Hlen. unfold slice. rewrite length_take, length_drop. lia. Qed.

(** A slice that ends within the first [n] bytes sees only those. *)
Lemma slice_take (buf : t) (n start stop : nat) :
  (stop <= n)%nat -> slice (take n buf) start stop = slice buf start stop.
Proof.
  intros Hstop. unfold slice.
  rewrite skipn_firstn_comm, firstn_firstn. f_equal. lia.
Qed.

Lemma little_endian_bound (bytes : t) :
  Forall is_byte bytes ->
  0 <= little_endian bytes < 256 ^ Z.of_nat (length bytes).
Proof.
  induction 1 as [| b rest Hb _ IH]; simpl length; simpl little_endian.
  - simpl. lia.
  - rewrite Nat2Z.inj_succ, Z.pow_succ_r by lia. unfold is_byte in Hb. lia.
Qed.

(** The slice that starts at an index in range starts with that byte. *)
Lemma slice_cons (buf : t) (start stop : nat) (b : Z) :
  buf !! start = Some b -> (start < stop)%nat ->
  slice buf start stop = b :: slice buf (S start) stop.
Proof.
  intros Hb Hlt. unfold slice.
  rewrite (drop_S _ _ _ Hb).
  replace (stop - start)%nat with (S (stop - S start)) by lia.
  reflexivity.
Qed.

Lemma slice_nil (buf : t) (start : nat) : slice buf start start = [].
Proof. unfold slice. rewrite Nat.sub_diag. reflexivity. Qed.

Lemma at_lookup (buf : t) (i : nat) (b : Z) : buf !! i = Some b -> at_ buf i = b.
Proof. unfold at_. intros ->. reflexivity. Qed.

(** The 32-bit read is the little-endian integer of the four bytes at the
    offset, whenever they lie in the buffer. *)
Lemma readUInt32LE_spec (buf : t) (offset : nat) :
  (offset + 4 <= length buf)%nat ->
  readUInt32LE buf offset = Return (little_endian (slice buf offset (offset + 4))).
Proof.
  intros Hlen.
  destruct (lookup_lt_is_Some_2 buf offset) as [b0 H0]; [lia |].
  destruct (lookup_lt_is_Some_2 buf (offset + 1)) as [b1 H1]; [lia |].
  destruct (lookup_lt_is_Some_2 buf (offset + 2)) as [b2 H2]; [lia |].
  destruct (lookup_lt_is_Some_2 buf (offset + 3)) as [b3 H3]; [lia |].
  unfold readUInt32LE. rewrite H0, H3.
  rewrite (at_lookup _ _ _ H1), (at_lookup _ _ _ H2).
  rewrite (slice_cons _ _ _ _ H0) by lia.
  replace (S offset) with (offset + 1)%nat by lia.
  rewrite (slice_cons _ _ _ _ H1) by lia.
  replace (S (offset + 1)) with (offset + 2)%nat by lia.
  rewrite (slice_cons _ _ _ _ H2) by lia.
  replace (S (offset + 2)) with (offset + 3)%nat by lia.
  rewrite (slice_cons _ _ _ _ H3) by lia.
  replace (S (offset + 3)) with (offset + 4)%nat by lia.
  rewrite slice_nil. simpl little_endian. f_equal. lia.
Qed.

(** The 64-bit read is the little-endian integer of the eight bytes at the
    offset, whenever they lie in the buffer. *)
Lemma readBigUInt64LE_spec (buf : t) (offset : nat) :
  (offset + 8 <= length buf)%nat ->
  readBigUInt64LE buf offset
  = Return (little_endian (slice buf offset (offset + 8))).
Proof.
  intros Hlen.
  destruct (lookup_lt_is_Some_2 buf offset) as [b0 H0]; [lia |].
  destruct (lookup_lt_is_Some_2 buf (offset + 1)) as [b1 H1]; [lia |].
  destruct (lookup_lt_is_Some_2 buf (offset + 2)) as [b2 H2]; [lia |].
  destruct (lookup_lt_is_Some_2 buf (offset + 3)) as [b3 H3]; [lia |].
  destruct (lookup_lt_is_Some_2 buf (offset + 4)) as [b4 H4]; [lia |].
  destruct (lookup_lt_is_Some_2 buf (offset + 5)) as [b5 H5]; [lia |].
  destruct (lookup_lt_is_Some_2 buf (offset + 6)) as [b6 H6]; [lia |].
  destruct (lookup_lt_is_Some_2 buf (offset + 7)) as [b7 H7]; [lia |].
  unfold readBigUInt64LE. rewrite H0, H7.
  rewrite (at_lookup _ _ _ H1), (at_lookup _ _ _ H2), (at_lookup _ _ _ H3),
    (at_lookup _ _ _ H4), (at_lookup _ _ _ H5), (at_lookup _ _ _ H6).
  rewrite (slice_cons _ _ _ _ H0) by lia.
  replace (S offset) with (offset + 1)%nat by lia.
  rewrite (slice_cons _ _ _ _ H1) by lia.
  replace (S (offset + 1)) with (offset + 2)%nat by lia.
  rewrite (slice_cons _ _ _ _ H2) by lia.
  replace (S (offset + 2)) with (offset + 3)%nat by lia.
  rewrite (slice_cons _ _ _ _ H3) by lia.
  replace (S (offset + 3)) with (offset + 4)%nat by lia.
  rewrite (slice_cons _ _ _ _ H4) by lia.
  replace (S (offset + 4)) with (offset + 5)%nat by lia.
  rewrite (slice_cons _ _ _ _ H5) by lia.
  replace (S (offset + 5)) with (offset + 6)%nat by lia.
  rewrite (slice_cons _ _ _ _ H6) by lia.
  replace (S (offset + 6)) with (offset + 7)%nat by lia.
  rewrite (slice_cons _ _ _ _ H7) by lia.
  replace (S (offset + 7)) with (offset + 8)%nat by lia.
  rewrite slice_nil. simpl little_endian. f_equal.
  rewrite Z.shiftl_mul_pow2 by lia. lia.
Qed.

End BufferFacts.

(** ** The system-log decoder *)

Section Decoder.
Context `{Imports}.

Import Buffer.

(** What the decoder does on a log item with string data: the length check,
    then the four reads, none of which can fail on 40 bytes. *)
Lemma parsePolyjuiceSystemLog_hex (logItem : value) (data : string) :
  get logItem "data" = Return (VString data) ->
  parsePolyjuiceSystemLog logItem
  = if (length (buffer_of data) =? 40)%nat
    then Return (layout_record (buffer_of data))
    else Throw (length_error (buffer_of data)).
Proof.
  intros Hdata. unfold parsePolyjuiceSystemLog.
  rewrite Hdata, bind_Return.
  change (JS.slice (VString data) 2) with (Return (VString (string_from 2 data))).
  rewrite bind_Return.
  change (Buffer_from (VString (string_from 2 data)))
    with (Return (buffer_of data)).
  rewrite bind_Return.
  change (8 + 8 + 16 + 4 + 4)%nat with 40%nat.
  destruct (length (buffer_of data) =? 40)%nat eqn:Hlen; [| reflexivity].
  apply Nat.eqb_eq in Hlen. cbv [negb].
  rewrite (readBigUInt64LE_spec _ 0), (readBigUInt64LE_spec _ 8),
    (readUInt32LE_spec _ 32) by lia.
  reflexivity.
Qed.

End Decoder.

Section DecoderClaims.
Context `{Imports}.

Import Buffer.

(** C3. On a log item with string data the decoder raises the
    length-mismatch error, whose text names the length, exactly when the
    hex-decoded buffer is not 40 bytes long, and returns a record for every
    40-byte buffer; buffers of 0, 1, 39, 41 and 100 bytes are refused. *)
Theorem C3_length_check (logItem : value) (data : string) :
  get logItem "data" = Return (VString data) ->
  (length (buffer_of data) <> 40%nat ->
   parsePolyjuiceSystemLog logItem = Throw (length_error (buffer_of data)))
  /\ (length (buffer_of data) = 40%nat ->
      exists log, parsePolyjuiceSystemLog logItem = Return log)
  /\ ((exists e, parsePolyjuiceSystemLog logItem = Throw e)
      <-> length (buffer_of data) <> 40%nat)
  /\ Forall (fun n =>
       parsePolyjuiceSystemLog
         (VObject [("data", VString ("0x" ++ string_repeat "00" n))])
       = Throw (Error ("invalid system log raw data length: " ++ decimal n)))
       [0; 1; 39; 41; 100]%nat.
Proof.
  intros Hdata.
  rewrite (parsePolyjuiceSystemLog_hex _ _ Hdata).
  destruct (length (buffer_of data) =? 40)%nat eqn:Hlen.
  - apply Nat.eqb_eq in Hlen. repeat split.
    + intros Hne. contradiction.
    + intros _. eexists. reflexivity.
    + intros [e He]. discriminate He.
    + intros Hne. contradiction.
    + repeat constructor.
  - apply Nat.eqb_neq in Hlen. repeat split.
    + intros Heq. contradiction.
    + intros _. exact Hlen.
    + intros _. eexists. reflexivity.
    + repeat constructor.
Qed.

(** C4, amended.  For every 40-byte log buffer the decoder returns the four
    fields of the layout table: gasUsed and cumulativeGasUsed are the
    unsigned 64-bit little-endian integers at offsets 0 and 8,
    createdAddress is the sixteen bytes at offset 16 in hexadecimal after
    "0x", statusCode is the unsigned 32-bit little-endian integer at offset
    32. *)
Theorem C4_four_fields (logItem : value) (data : string) :
  get logItem "data" = Return (VString data) ->
  length (buffer_of data) = 40%nat ->
  exists log,
    parsePolyjuiceSystemLog logItem = Return log
    /\ gasUsed log = little_endian (slice (buffer_of data) 0 8)
    /\ 0 <= gasUsed log < 2 ^ 64
    /\ cumulativeGasUsed log = little_endian (slice (buffer_of data) 8 16)
    /\ 0 <= cumulativeGasUsed log < 2 ^ 64
    /\ createdAddress log = "0x" ++ to_hex (slice (buffer_of data) 16 32)
    /\ length (slice (buffer_of data) 16 32) = 16%nat
    /\ String.length (createdAddress log) = 34%nat
    /\ statusCode log = little_endian (slice (buffer_of data) 32 36)
    /\ 0 <= statusCode log < 2 ^ 32.
Proof.
  intros Hdata Hlen.
  rewrite (parsePolyjuiceSystemLog_hex _ _ Hdata), Hlen.
  exists (layout_record (buffer_of data)). cbn [Nat.eqb].
  pose proof (from_hex_is_byte (string_from 2 data)) as Hbytes.
  fold (buffer_of data) in Hbytes.
  assert (Hfield : forall start stop,
             (stop <= 40)%nat ->
             0 <= little_endian (slice (buffer_of data) start stop)
             < 256 ^ Z.of_nat (stop - start)).
  { intros start stop Hstop.
    rewrite <- (slice_length (buffer_of data) start stop) by lia.
    apply little_endian_bound, slice_is_byte, Hbytes. }
  repeat split; try reflexivity.
  - apply (Hfield 0 8)%nat. lia.
  - apply (Hfield 0 8)%nat. lia.
  - apply (Hfield 8 16)%nat. lia.
  - apply (Hfield 8 16)%nat. lia.
  - apply slice_length. lia.
  - change (String.length (createdAddress (layout_record (buffer_of data))))
      with (S (S (String.length (to_hex (slice (buffer_of data) 16 32))))).
    rewrite to_hex_length, slice_length by lia. reflexivity.
  - apply (Hfield 32 36)%nat. lia.
  - apply (Hfield 32 36)%nat. lia.
Qed.

(** C5. For every 40-byte log buffer the returned createdAddress starts
    with "0x", decodes back to bytes 16 to 31 of the buffer, and encoding
    those bytes again gives the same string. *)
Theorem C5_address_round_trip (logItem : value) (data : string) :
  get logItem "data" = Return (VString data) ->
  length (buffer_of data) = 40%nat ->
  exists log,
    parsePolyjuiceSystemLog logItem = Return log
    /\ String.prefix "0x" (createdAddress log) = true
    /\ from_hex (string_from 2 (createdAddress log))
       = slice (buffer_of data) 16 32
    /\ "0x" ++ to_hex (from_hex (string_from 2 (createdAddress log)))
       = createdAddress log.
Proof.
  intros Hdata Hlen.
  rewrite (parsePolyjuiceSystemLog_hex _ _ Hdata), Hlen.
  exists (layout_record (buffer_of data)). cbn [Nat.eqb].
  assert (Hback : from_hex (to_hex (slice (buffer_of data) 16 32))
                  = slice (buffer_of data) 16 32).
  { apply from_hex_to_hex, slice_is_byte, from_hex_is_byte. }
  split; [reflexivity |]. split; [apply (prefix_app "0x") |]. split.
  - exact Hback.
  - change (from_hex (string_from 2 (createdAddress (layout_record (buffer_of data)))))
      with (from_hex (to_hex (slice (buffer_of data) 16 32))).
    rewrite Hback. reflexivity.
Qed.

(** C9. Two log items whose buffers are both 40 bytes long and agree on
    bytes 0 to 35 decode to the same record: bytes 36 to 39 count in the
    length check and are not read. *)
Theorem C9_last_bytes_ignored (logItem1 logItem2 : value) (data1 data2 : string) :
  get logItem1 "data" = Return (VString data1) ->
  get logItem2 "data" = Return (VString data2) ->
  length (buffer_of data1) = 40%nat ->
  length (buffer_of data2) = 40%nat ->
  take 36 (buffer_of data1) = take 36 (buffer_of data2) ->
  parsePolyjuiceSystemLog logItem1 = parsePolyjuiceSystemLog logItem2
  /\ exists log, parsePolyjuiceSystemLog logItem1 = Return log.
Proof.
  intros Hdata1 Hdata2 Hlen1 Hlen2 Hsame.
  rewrite (parsePolyjuiceSystemLog_hex _ _ Hdata1), Hlen1.
  rewrite (parsePolyjuiceSystemLog_hex _ _ Hdata2), Hlen2.
  cbn [Nat.eqb]. split; [| eexists; reflexivity].
  f_equal. unfold layout_record.
  rewrite <- (slice_take (buffer_of data1) 36 0 8),
    <- (slice_take (buffer_of data1) 36 8 16),
    <- (slice_take (buffer_of data1) 36 16 32),
    <- (slice_take (buffer_of data1) 36 32 36) by lia.
  rewrite Hsame.
  rewrite !slice_take by lia. reflexivity.
Qed.

End DecoderClaims.

(** ** The error translator *)

Section Translator.
Context `{Imports}.

Import Buffer.

(** A message cannot start with both prefixes. *)
Lemma prefixes_exclusive (text : string) :
  String.prefix prefix text = true -> String.prefix "request to" text = false.
Proof.
  destruct text as [| c text]; unfold prefix.
  - intros Hpre. discriminate Hpre.
  - rewrite !prefix_cons. intros Hpre.
    apply andb_true_iff in Hpre as [Hc _]. apply Ascii.eqb_eq in Hc. subst c.
    reflexivity.
Qed.

(** Every path of the translator ends in a [throw]. *)
Lemma parseError_throws (error : value) : exists e, parseError error = Throw e.
Proof.
  unfold parseError. apply bind_throws. intros message.
  destruct message as [| | b | n | text | items | fields];
    try (eexists; reflexivity).
  destruct (String.prefix prefix text).
  - repeat (apply bind_throws; intros ?). eexists; reflexivity.
  - destruct (String.prefix "request to" text); eexists; reflexivity.
Qed.

(** The revert branch, when each of its steps succeeds. *)
Lemma parseError_revert (error : value) (text : string)
  (err data last_log return_data code reason : value)
  (log : PolyjuiceSystemLog) (encoded : string) :
  get error "message" = Return (VString text) ->
  String.prefix prefix text = true ->
  JSON_parse (string_from (String.length prefix) text) = Some err ->
  get err "data" = Return data ->
  get data "last_log" = Return last_log ->
  parsePolyjuiceSystemLog last_log = Return log ->
  get data "return_data" = Return return_data ->
  substring return_data 10 = Return encoded ->
  decodeParameter "string" encoded = Return reason ->
  get err "code" = Return code ->
  parseError error
  = Throw (RpcError code (JSON_stringify (errorReceipt (statusCode log) reason))).
Proof.
  intros Hmsg Hpre Hparse Hdata Hlog Hdecode Hret Hsub Habi Hcode.
  unfold parseError. rewrite Hmsg, bind_Return, Hpre.
  unfold parse. rewrite Hparse, bind_Return.
  rewrite Hdata, bind_Return, Hlog, bind_Return, Hdecode, bind_Return.
  rewrite Hret, bind_Return, Hsub, bind_Return, Habi, bind_Return.
  rewrite Hcode, bind_Return. reflexivity.
Qed.

Lemma parseError_connection (error : value) (text : string) :
  get error "message" = Return (VString text) ->
  String.prefix "request to" text = true ->
  parseError error = Throw (Error text).
Proof.
  intros Hmsg Hreq.
  unfold parseError. rewrite Hmsg, bind_Return.
  destruct (String.prefix prefix text) eqn:Hpre.
  - apply prefixes_exclusive in Hpre. congruence.
  - rewrite Hreq. reflexivity.
Qed.

Lemma parseError_default (error : value) (text : string) :
  get error "message" = Return (VString text) ->
  String.prefix prefix text = false ->
  String.prefix "request to" text = false ->
  parseError error = Throw (RpcError (VNumber GW_RPC_REQUEST_ERROR) text).
Proof.
  intros Hmsg Hpre Hreq.
  unfold parseError. rewrite Hmsg, bind_Return, Hpre, Hreq. reflexivity.
Qed.

(** The revert branch on a payload of the expected shape. *)
Lemma parseError_revert_shape (error : value) (rest : string)
  (err data last_log : value) (code : Z) (hex return_data : string)
  (reason : value) :
  get error "message" = Return (VString (prefix ++ rest)) ->
  JSON_parse rest = Some err ->
  get err "code" = Return (VNumber code) ->
  get err "data" = Return data ->
  get data "last_log" = Return last_log ->
  get last_log "data" = Return (VString hex) ->
  length (buffer_of hex) = 40%nat ->
  get data "return_data" = Return (VString return_data) ->
  decodeParameter "string" (string_from 10 return_data) = Return reason ->
  parseError error
  = Throw (RpcError (VNumber code)
             (JSON_stringify
                (errorReceipt (little_endian (slice (buffer_of hex) 32 36))
                   reason))).
Proof.
  intros Hmsg Hparse Hcode Hdata Hlog Hhex Hlen Hret Habi.
  assert (Hdecode : parsePolyjuiceSystemLog last_log
                    = Return (layout_record (buffer_of hex))).
  { rewrite (parsePolyjuiceSystemLog_hex _ _ Hhex), Hlen. reflexivity. }
  apply (parseError_revert error (prefix ++ rest) err data last_log
           (VString return_data) (VNumber code) reason
           (layout_record (buffer_of hex)) (string_from 10 return_data));
    [ exact Hmsg | apply prefix_app | rewrite string_from_app; exact Hparse
    | exact Hdata | exact Hlog | exact Hdecode | exact Hret | reflexivity
    | exact Habi | exact Hcode ].
Qed.

End Translator.

Section TranslatorClaims.
Context `{Imports}.

Import Buffer.

(** C1, amended.  For every caught error whose message is a string the
    translator classifies in order.  A message starting with
    "JSONRPCError: server error " takes the revert branch, whatever else it
    starts with: the translator raises, and what it raises is the
    structured revert error whenever the rest of the message parses and the
    log and the return data decode.  Otherwise a message starting with
    "request to" is raised again as an error with the same text, and any
    other message is raised with the generic request-error code and the
    same text. *)
Theorem C1_classification (error : value) (text : string) :
  get error "message" = Return (VString text) ->
  (String.prefix prefix text = true ->
   String.prefix "request to" text = false
   /\ (exists e, parseError error = Throw e)
   /\ forall (err data last_log return_data code reason : value)
        (log : PolyjuiceSystemLog) (encoded : string),
        JSON_parse (string_from (String.length prefix) text) = Some err ->
        get err "data" = Return data ->
        get data "last_log" = Return last_log ->
        parsePolyjuiceSystemLog last_log = Return log ->
        get data "return_data" = Return return_data ->
        substring return_data 10 = Return encoded ->
        decodeParameter "string" encoded = Return reason ->
        get err "code" = Return code ->
        parseError error
        = Throw (RpcError code
                   (JSON_stringify (errorReceipt (statusCode log) reason))))
  /\ (String.prefix prefix text = false ->
      String.prefix "request to" text = true ->
      parseError error = Throw (Error text))
  /\ (String.prefix prefix text = false ->
      String.prefix "request to" text = false ->
      parseError error = Throw (RpcError (VNumber GW_RPC_REQUEST_ERROR) text)).
Proof.
  intros Hmsg. split; [| split].
  - intros Hpre. split; [| split].
    + apply prefixes_exclusive, Hpre.
    + apply parseError_throws.
    + intros err data last_log return_data code reason log encoded
        Hparse Hdata Hlog Hdecode Hret Hsub Habi Hcode.
      exact (parseError_revert error text err data last_log return_data code
               reason log encoded Hmsg Hpre Hparse Hdata Hlog Hdecode Hret
               Hsub Habi Hcode).
  - intros _ Hreq. apply parseError_connection; assumption.
  - intros Hpre Hreq. apply parseError_default; assumption.
Qed.

(** C8. A message that starts with the revert prefix and goes on with text
    that is not JSON, or with JSON that has no [data] or whose [data] has
    no [last_log], makes the revert branch raise a SyntaxError or a
    TypeError: an exception that is neither an [RpcError] nor the plain
    [Error] of the connection branch, and has neither code nor message of
    the translator's making. *)
Theorem C8_revert_branch_partial (error : value) (rest : string) :
  get error "message" = Return (VString (prefix ++ rest)) ->
  JSON_parse rest = None
  \/ (exists err, JSON_parse rest = Some err
                  /\ get err "data" = Return VUndefined)
  \/ (exists err data, JSON_parse rest = Some err
                       /\ get err "data" = Return data
                       /\ get data "last_log" = Return VUndefined) ->
  String.prefix prefix (prefix ++ rest) = true
  /\ exists e,
       parseError error = Throw e
       /\ (e = SyntaxError \/ e = TypeError)
       /\ (forall code message, e <> RpcError code message)
       /\ (forall message, e <> Error message).
Proof.
  intros Hmsg Hbad. split; [apply prefix_app |].
  unfold parseError. rewrite Hmsg, bind_Return, prefix_app, string_from_app.
  unfold parse.
  destruct Hbad as [Hnone | [(err & Hparse & Hdata)
                             | (err & data & Hparse & Hdata & Hlog)]].
  - rewrite Hnone, bind_Throw. exists SyntaxError.
    repeat split; [left; reflexivity | discriminate ..].
  - rewrite Hparse, bind_Return, Hdata, bind_Return.
    exists TypeError.
    repeat split; [right; reflexivity | discriminate ..].
  - rewrite Hparse, bind_Return, Hdata, bind_Return, Hlog, bind_Return.
    exists TypeError.
    repeat split; [right; reflexivity | discriminate ..].
Qed.

(** C10. An error whose message starts with "request to" is raised again as
    a plain error that carries the original message and no code, whereas
    the default branch raises an error carrying the request-error code and
    the revert branch one carrying the upstream's numeric code. *)
Theorem C10_connection_error_has_no_code (error : value) (text : string) :
  get error "message" = Return (VString text) ->
  String.prefix "request to" text = true ->
  String.prefix prefix text = false
  /\ parseError error = Throw (Error text)
  /\ code_of (Error text) = None
  /\ message_of (Error text) = Some text
  /\ (forall (error' : value) (text' : string),
        get error' "message" = Return (VString text') ->
        String.prefix prefix text' = false ->
        String.prefix "request to" text' = false ->
        exists e, parseError error' = Throw e
                  /\ code_of e = Some (VNumber GW_RPC_REQUEST_ERROR)
                  /\ message_of e = Some text')
  /\ (forall (error' : value) (rest : string) (err data last_log : value)
        (code : Z) (hex return_data : string) (reason : value),
        get error' "message" = Return (VString (prefix ++ rest)) ->
        JSON_parse rest = Some err ->
        get err "code" = Return (VNumber code) ->
        get err "data" = Return data ->
        get data "last_log" = Return last_log ->
        get last_log "data" = Return (VString hex) ->
        length (buffer_of hex) = 40%nat ->
        get data "return_data" = Return (VString return_data) ->
        decodeParameter "string" (string_from 10 return_data) = Return reason ->
        exists e, parseError error' = Throw e
                  /\ code_of e = Some (VNumber code)).
Proof.
  intros Hmsg Hreq. split; [| split; [| split; [| split; [| split]]]].
  - destruct (String.prefix prefix text) eqn:Hpre; [| reflexivity].
    apply prefixes_exclusive in Hpre. congruence.
  - apply parseError_connection; assumption.
  - reflexivity.
  - reflexivity.
  - intros error' text' Hmsg' Hpre' Hreq'. eexists. split.
    + apply parseError_default; eassumption.
    + split; reflexivity.
  - intros error' rest err data last_log code hex return_data reason
      Hmsg' Hparse Hcode Hdata Hlog Hhex Hlen Hret Habi.
    eexists. split.
    + exact (parseError_revert_shape error' rest err data last_log code hex
               return_data reason Hmsg' Hparse Hcode Hdata Hlog Hhex Hlen Hret
               Habi).
    + reflexivity.
Qed.

End TranslatorClaims.

(** ** The reference JSON reads back what it prints *)

Section ReferenceJSON.

Import JSON JSON_print.

Lemma string_app_assoc (a b c : string) : (a ++ b) ++ c = a ++ (b ++ c).
Proof.
  induction a as [| x a IH]; simpl; [reflexivity | rewrite IH; reflexivity].
Qed.

(** A printed string is read back up to its closing quote, whatever its
    characters are. *)
Lemma string_body_quote (s rest : string) :
  string_body (quote_body s ++ String "034" rest) = Some (s, rest).
Proof.
  induction s as [| c s IH]; [reflexivity |].
  destruct c as [[] [] [] [] [] [] [] []]; simpl; rewrite IH; reflexivity.
Qed.

Lemma quote_app (s rest : string) :
  quote s ++ rest = String "034" (quote_body s ++ String "034" rest).
Proof.
  unfold quote. cbn [String.append]. rewrite string_app_assoc. reflexivity.
Qed.

Lemma element_string (fuel : nat) (s rest : string) :
  element (S fuel) (quote s ++ rest) = Some (VString s, rest).
Proof.
  rewrite quote_app.
  assert (Hstep : forall t, element (S fuel) (String "034" t)
                            = '(text, r) ← string_body t; Some (VString text, r))
    by reflexivity.
  rewrite Hstep, string_body_quote. reflexivity.
Qed.

(** One property of an object: its key, its value, and what follows. *)
Lemma members_step (fuel : nat) (k text : string) :
  members (S fuel) (quote k ++ String ":" text)
  = '(v, r) ← element fuel text;
    match skip_ws r with
    | String "," r3 => '(fields, r4) ← members fuel r3; Some ((k, v) :: fields, r4)
    | String "}" r3 => Some ([(k, v)], r3)
    | _ => None
    end.
Proof.
  rewrite quote_app.
  assert (Hstep : forall t, members (S fuel) (String "034" t)
                            = '(key, r) ← string_body t;
                              match skip_ws r with
                              | String ":" r' =>
                                  '(v, r'') ← element fuel r';
                                  match skip_ws r'' with
                                  | String "," r3 =>
                                      '(fields, r4) ← members fuel r3;
                                      Some ((key, v) :: fields, r4)
                                  | String "}" r3 => Some ([(key, v)], r3)
                                  | _ => None
                                  end
                              | _ => None
                              end)
    by reflexivity.
  rewrite Hstep, string_body_quote. reflexivity.
Qed.

Lemma element_object (fuel : nat) (k rest : string) :
  element (S fuel) (String "{" (quote k ++ rest))
  = '(fields, r) ← members fuel (quote k ++ rest); Some (VObject fields, r).
Proof. rewrite quote_app. reflexivity. Qed.

Lemma element_0 (fuel : nat) (rest : string) :
  element (S fuel) (String "0" (String "," rest))
  = Some (VNumber 0, String "," rest).
Proof. reflexivity. Qed.

Lemma element_5 (fuel : nat) (rest : string) :
  element (S fuel) (String "5" (String "," rest))
  = Some (VNumber 5, String "," rest).
Proof. reflexivity. Qed.

Local Ltac tidy :=
  repeat (progress (rewrite ?string_app_assoc; cbn -[quote element members])).

(** The payload of the specification's example is read back from its
    text, whatever the encoded string is. *)
Lemma element_example_payload (fuel : nat) (abi : string) :
  (9 <= fuel)%nat ->
  element fuel (stringify (example_payload abi))
  = Some (example_payload abi, EmptyString).
Proof.
  intros Hfuel.
  do 9 (destruct fuel as [| fuel]; [lia |]).
  tidy.
  rewrite element_object, members_step, element_5. tidy.
  rewrite members_step, element_object, members_step, element_object.
  rewrite members_step, element_string. tidy.
  rewrite members_step, element_string. tidy.
  reflexivity.
Qed.

Lemma parse_example_payload (abi : string) :
  parse (stringify (example_payload abi)) = Some (example_payload abi).
Proof.
  unfold parse. rewrite element_example_payload; [reflexivity |].
  simpl. lia.
Qed.

(** The receipt of status code 0 is read back from its text, whatever the
    reason is. *)
Lemma element_receipt (fuel : nat) (reason : string) :
  (4 <= fuel)%nat ->
  element fuel
    (stringify (VObject [("status_code", VNumber 0);
                         ("status_reason", VString reason)]))
  = Some (VObject [("status_code", VNumber 0);
                   ("status_reason", VString reason)], EmptyString).
Proof.
  intros Hfuel.
  do 4 (destruct fuel as [| fuel]; [lia |]).
  tidy.
  rewrite element_object, members_step, element_0. tidy.
  rewrite members_step, element_string. tidy.
  reflexivity.
Qed.

Lemma parse_receipt (reason : string) :
  parse (stringify (VObject [("status_code", VNumber 0);
                             ("status_reason", VString reason)]))
  = Some (VObject [("status_code", VNumber 0);
                   ("status_reason", VString reason)]).
Proof.
  unfold parse. rewrite element_receipt; [reflexivity |].
  simpl. lia.
Qed.

End ReferenceJSON.

(** C2, amended.  When the message is the revert prefix followed by JSON of
    the shape [{code, data: {last_log, return_data}}], with [last_log.data]
    a hex string of 40 bytes, and the ABI coder decodes a string from
    [return_data] without its first ten characters, the translator raises
    an error carrying the upstream's numeric code and, as message, the
    serialization of the object whose [status_code] is the status code of
    the decoded system log (the 32-bit little-endian integer at offset 32)
    and whose [status_reason] is that string.  For the example of the
    specification the coder is given the last two of the ten zeros followed
    by the encoded string; whenever it decodes a string from them, the
    error has code 5 and its message is the serialization of
    [{status_code: 0, status_reason}] with that string, which the reference
    JSON reads back to that object for every coder. *)
Theorem C2_revert_error :
  (forall (I : Imports) (error : value) (rest : string)
     (err data last_log : value) (code : Z) (hex return_data reason : string),
      get error "message" = Return (VString (prefix ++ rest)) ->
      JSON_parse rest = Some err ->
      get err "code" = Return (VNumber code) ->
      get err "data" = Return data ->
      get data "last_log" = Return last_log ->
      get last_log "data" = Return (VString hex) ->
      length (buffer_of hex) = 40%nat ->
      get data "return_data" = Return (VString return_data) ->
      decodeParameter "string" (string_from 10 return_data)
      = Return (VString reason) ->
      exists log,
        parsePolyjuiceSystemLog last_log = Return log
        /\ statusCode log
           = Buffer.little_endian (Buffer.slice (buffer_of hex) 32 36)
        /\ parseError error
           = Throw (RpcError (VNumber code)
                      (JSON_stringify
                         (VObject [("status_code", VNumber (statusCode log));
                                   ("status_reason", VString reason)]))))
  /\ (forall (I : Imports) (error : value) (abi reason : string),
        get error "message"
        = Return (VString (prefix ++ JSON_stringify (example_payload abi))) ->
        JSON_parse (JSON_stringify (example_payload abi))
        = Some (example_payload abi) ->
        decodeParameter "string" ("00" ++ abi) = Return (VString reason) ->
        parseError error
        = Throw (RpcError (VNumber 5)
                   (JSON_stringify
                      (VObject [("status_code", VNumber 0);
                                ("status_reason", VString reason)]))))
  /\ (forall (coder : string -> string -> result value)
        (array_bytes : list value -> result Buffer.t) (request_error : Z)
        (upstream : string -> list value -> settled)
        (wrapper : method -> nat -> method)
        (error : value) (abi reason : string),
        get error "message"
        = Return (VString (prefix ++ JSON_print.stringify (example_payload abi))) ->
        coder "string" ("00" ++ abi) = Return (VString reason) ->
        exists message,
          @parseError
            (Build_Imports JSON.parse JSON_print.stringify coder array_bytes
               request_error upstream wrapper) error
          = Throw (RpcError (VNumber 5) message)
          /\ JSON.parse message
             = Some (VObject [("status_code", VNumber 0);
                              ("status_reason", VString reason)])).
Proof.
  assert (Hexample :
            forall (I : Imports) (error : value) (abi reason : string),
              get error "message"
              = Return (VString (prefix ++ JSON_stringify (example_payload abi))) ->
              JSON_parse (JSON_stringify (example_payload abi))
              = Some (example_payload abi) ->
              decodeParameter "string" ("00" ++ abi) = Return (VString reason) ->
              parseError error
              = Throw (RpcError (VNumber 5)
                         (JSON_stringify
                            (VObject [("status_code", VNumber 0);
                                      ("status_reason", VString reason)])))).
  { intros I error abi reason Hmsg Hparse Habi.
    apply (parseError_revert_shape error (JSON_stringify (example_payload abi))
             (example_payload abi)
             (VObject
                [("last_log",
                  VObject [("data", VString ("0x" ++ string_repeat "00" 40))]);
                 ("return_data", VString ("0x" ++ string_repeat "0" 10 ++ abi))])
             (VObject [("data", VString ("0x" ++ string_repeat "00" 40))])
             5 ("0x" ++ string_repeat "00" 40)
             ("0x" ++ string_repeat "0" 10 ++ abi) (VString reason));
      [ exact Hmsg | exact Hparse | reflexivity | reflexivity | reflexivity
      | reflexivity | reflexivity | reflexivity | exact Habi ]. }
  split; [| split].
  - intros I error rest err data last_log code hex return_data reason
      Hmsg Hparse Hcode Hdata Hlog Hhex Hlen Hret Habi.
    exists (layout_record (buffer_of hex)). split; [| split].
    + rewrite (parsePolyjuiceSystemLog_hex _ _ Hhex), Hlen. reflexivity.
    + reflexivity.
    + exact (parseError_revert_shape error rest err data last_log code hex
               return_data (VString reason) Hmsg Hparse Hcode Hdata Hlog Hhex
               Hlen Hret Habi).
  - exact Hexample.
  - intros coder array_bytes request_error upstream wrapper error abi reason
      Hmsg Habi.
    exists (JSON_print.stringify
              (VObject [("status_code", VNumber 0);
                        ("status_reason", VString reason)])).
    split.
    + apply (Hexample
               (Build_Imports JSON.parse JSON_print.stringify coder array_bytes
                  request_error upstream wrapper) error abi reason Hmsg).
      * apply parse_example_payload.
      * exact Habi.
    + apply parse_receipt.
Qed.

(** ** The wrapper class *)

Section WrapperClaims.
Context `{Imports}.

(** The try/catch of every method: the upstream's result comes back
    unchanged, and after a failure the method throws what the translator
    throws. *)
Lemma forward_spec (call : settled) :
  match call with
  | Fulfilled result => forward call = Return result
  | Rejected error =>
      exists e, parseError error = Throw e /\ forward call = Throw e
  end.
Proof.
  destruct call as [result | error]; [reflexivity |].
  destruct (parseError_throws error) as [e He].
  exists e. split; [exact He |].
  unfold forward. rewrite He. reflexivity.
Qed.

(** C6. Each method of the class sends its arguments as they are to the
    upstream method named "gw_" followed by its own name; it returns the
    upstream's result unchanged and, when the upstream call fails, throws
    what the translator throws and never returns.  The same holds of the
    methods of a constructed object, where [middleware], given no required
    parameter, passes the arguments through. *)
Theorem C6_forwarding :
  (forall (name : string) (m : method) (args : list value),
      In (name, m) Gw_prototype ->
      match rpc ("gw_" ++ name) args with
      | Fulfilled result => m args = Return result
      | Rejected error =>
          exists e, parseError error = Throw e /\ m args = Throw e
      end)
  /\ ((forall (m : method) (args : list value), middleware m 0 args = m args) ->
      forall (name : string) (m : method) (args : list value),
        In (name, m) Gw ->
        match rpc ("gw_" ++ name) args with
        | Fulfilled result => m args = Return result
        | Rejected error =>
            exists e, parseError error = Throw e /\ m args = Throw e
        end).
Proof.
  split.
  - intros name m args Hin. unfold Gw_prototype in Hin. simpl In in Hin.
    repeat (destruct Hin as [Heq | Hin];
            [injection Heq as <- <-; apply forward_spec |]).
    contradiction.
  - intros Hpass name m args Hin. unfold Gw in Hin. simpl In in Hin.
    repeat (destruct Hin as [Heq | Hin];
            [injection Heq as <- <-; rewrite ?Hpass; apply forward_spec |]).
    contradiction.
Qed.

End WrapperClaims.

(** ** The net methods *)

(** C7. Whatever the arguments, each net method calls its callback once,
    with [null] as the error: [version] passes the configured chain
    identifier, [peerCount] the constant 0, and [listening] the listening
    flag of the hosting server. *)
Theorem C7_net_methods (R : Type) (Config_chain_id : value)
  (server : Net.Server) (args : list value) (callback : value -> value -> R) :
  Net.version Config_chain_id args callback = callback VNull Config_chain_id
  /\ Net.peerCount args callback = callback VNull (VNumber 0)
  /\ Net.listening server args callback
     = callback VNull (VBool (Net.isListening server)).
Proof. repeat split. Qed.

(** ** The theorems at the reference implementation *)

Section Instances.

Import Buffer Reference.

Local Abbreviation run_decoder := (@parsePolyjuiceSystemLog imports).
Local Abbreviation run_translator := (@parseError imports).

(** Closes a goal between closed terms by evaluation. *)
Local Ltac run := vm_compute; first [reflexivity | discriminate].

Lemma C3_length_check_witness :
  run_decoder (log_item short_log_data)
  = Throw (Error "invalid system log raw data length: 39")
  /\ exists log, run_decoder (log_item log_data) = Return log.
Proof.
  split.
  - apply (proj1 (C3_length_check (H:=imports) (log_item short_log_data)
                    short_log_data eq_refl)).
    run.
  - apply (proj1 (proj2 (C3_length_check (H:=imports) (log_item log_data)
                           log_data eq_refl))).
    run.
Defined.

Lemma C4_four_fields_witness :
  exists log,
    run_decoder (log_item log_data) = Return log
    /\ gasUsed log = 10000
    /\ cumulativeGasUsed log = 20000
    /\ createdAddress log = "0x00112233445566778899aabbccddeeff"
    /\ statusCode log = 2.
Proof.
  destruct (C4_four_fields (H:=imports) (log_item log_data) log_data
              eq_refl ltac:(run))
    as (log & Hlog & Hgas & _ & Hcumulative & _ & Haddress & _ & _ & Hstatus & _).
  exists log. repeat split.
  - exact Hlog.
  - exact Hgas.
  - exact Hcumulative.
  - exact Haddress.
  - exact Hstatus.
Defined.

(** Two 40-byte buffers that differ in bytes 36 to 39 give the same
    record: the decoder returns four fields and none for those bytes. *)
Lemma C4_counterexample :
  length (buffer_of log_data) = 40%nat
  /\ length (buffer_of log_data') = 40%nat
  /\ slice (buffer_of log_data) 36 40 = [0; 0; 0; 0]
  /\ slice (buffer_of log_data') 36 40 = [222; 173; 190; 239]
  /\ run_decoder (log_item log_data) = run_decoder (log_item log_data')
  /\ run_decoder (log_item log_data)
     = Return {| gasUsed := 10000;
                 cumulativeGasUsed := 20000;
                 createdAddress := "0x00112233445566778899aabbccddeeff";
                 statusCode := 2 |}.
Proof. repeat split; run. Qed.

Lemma C5_address_round_trip_witness :
  exists log,
    run_decoder (log_item log_data) = Return log
    /\ from_hex (string_from 2 (createdAddress log))
       = [0; 17; 34; 51; 68; 85; 102; 119; 136; 153; 170; 187; 204; 221; 238; 255]
    /\ "0x" ++ to_hex (from_hex (string_from 2 (createdAddress log)))
       = createdAddress log.
Proof.
  destruct (C5_address_round_trip (H:=imports) (log_item log_data) log_data
              eq_refl ltac:(run))
    as (log & Hlog & _ & Hbytes & Hagain).
  exists log. repeat split.
  - exact Hlog.
  - exact Hbytes.
  - exact Hagain.
Defined.

Lemma C9_last_bytes_ignored_witness :
  run_decoder (log_item log_data) = run_decoder (log_item log_data').
Proof.
  apply (C9_last_bytes_ignored (H:=imports) (log_item log_data)
           (log_item log_data') log_data log_data');
    run.
Defined.

(** A message that starts with the revert prefix and is not followed by a
    payload of the expected shape: the translator raises a TypeError, not
    the structured revert error. *)
Lemma C1_counterexample :
  String.prefix prefix (prefix ++ "{}") = true
  /\ run_translator (error_of (prefix ++ "{}")) = Throw TypeError
  /\ forall code message,
       run_translator (error_of (prefix ++ "{}"))
       <> Throw (RpcError code message).
Proof.
  split; [run |]. split; [run |].
  intros code message Habs. vm_compute in Habs. discriminate Habs.
Qed.

Lemma C1_classification_witness :
  run_translator (error_of revert_message)
  = Throw (RpcError (VNumber 3)
             (JSON_print.stringify (errorReceipt 2 (VString "hello"))))
  /\ run_translator connection_error
     = Throw (Error "request to http://localhost:8119/ failed, reason: connect ECONNREFUSED 127.0.0.1:8119")
  /\ run_translator method_not_found
     = Throw (RpcError (VNumber (-32099)) "method not found").
Proof.
  split; [| split].
  - destruct (C1_classification (H:=imports) (error_of revert_message)
                revert_message eq_refl) as (Hrevert & _ & _).
    destruct (Hrevert ltac:(run)) as (_ & _ & Hshape).
    pose proof (Hshape revert_payload revert_data (log_item log_data)
                  (VString ("0x08c379a0" ++ hello_abi)) (VNumber 3)
                  (VString "hello") (layout_record (buffer_of log_data))
                  hello_abi
                  ltac:(run) ltac:(run) ltac:(run) ltac:(run)
                  ltac:(run) ltac:(run) ltac:(run) ltac:(run)) as Hraised.
    vm_compute in Hraised. vm_compute. exact Hraised.
  - destruct (C1_classification (H:=imports) connection_error _ eq_refl)
      as (_ & Hconnection & _).
    apply Hconnection; run.
  - destruct (C1_classification (H:=imports) method_not_found _ eq_refl)
      as (_ & _ & Hdefault).
    apply Hdefault; run.
Defined.

Lemma C2_revert_error_witness :
  run_translator (error_of revert_message)
  = Throw (RpcError (VNumber 3)
             (JSON_print.stringify
                (VObject [("status_code", VNumber 2);
                          ("status_reason", VString "hello")])))
  /\ exists message,
       run_translator
         (error_of (prefix ++ JSON_print.stringify (example_payload hello_abi)))
       = Throw (RpcError (VNumber 5) message)
       /\ JSON.parse message
          = Some (VObject [("status_code", VNumber 0);
                           ("status_reason", VString EmptyString)]).
Proof.
  destruct C2_revert_error as (Hshape & _ & Hexample). split.
  - destruct (Hshape imports (error_of revert_message)
                (JSON_print.stringify revert_payload) revert_payload
                revert_data (log_item log_data) 3 log_data
                ("0x08c379a0" ++ hello_abi) "hello"
                ltac:(run) ltac:(run) ltac:(run) ltac:(run) ltac:(run)
                ltac:(run) ltac:(run) ltac:(run) ltac:(run))
      as (log & Hlog & Hstatus & Hraised).
    assert (Htwo : statusCode log = 2) by (rewrite Hstatus; run).
    rewrite Htwo in Hraised. exact Hraised.
  - exact (Hexample Abi.decodeParameter from_array request_error node
             pass_through
             (error_of (prefix ++ JSON_print.stringify (example_payload hello_abi)))
             hello_abi EmptyString ltac:(run) ltac:(run)).
Defined.

(** A payload of the expected shape, with a 40-byte log, whose return data
    the ABI coder does not decode: the translator raises the coder's error,
    which is no [RpcError] and has no code. *)
Lemma C2_counterexample :
  JSON.parse (JSON_print.stringify Samples.empty_return_payload)
  = Some Samples.empty_return_payload
  /\ get Samples.empty_return_payload "code" = Return (VNumber 3)
  /\ length (buffer_of log_data) = 40%nat
  /\ run_translator
       (error_of (prefix ++ JSON_print.stringify Samples.empty_return_payload))
     = Throw (Error "Returned values aren't valid, did it run Out of Gas?")
  /\ forall code message,
       run_translator
         (error_of (prefix ++ JSON_print.stringify Samples.empty_return_payload))
       <> Throw (RpcError code message).
Proof.
  split; [run |]. split; [run |]. split; [run |]. split; [run |].
  intros code message Habs. vm_compute in Habs. discriminate Habs.
Qed.

(** The revert branch does not always raise an error with a numeric code:
    on a payload that is an empty object it raises a TypeError, which has
    no code, and on a payload without [code] its structured error carries
    [undefined]. *)
Lemma C10_counterexample :
  String.prefix prefix (prefix ++ "{}") = true
  /\ run_translator (error_of (prefix ++ "{}")) = Throw TypeError
  /\ code_of TypeError = None
  /\ String.prefix prefix
       (prefix ++ JSON_print.stringify Samples.no_code_payload) = true
  /\ run_translator
       (error_of (prefix ++ JSON_print.stringify Samples.no_code_payload))
     = Throw (RpcError VUndefined
                (JSON_print.stringify (errorReceipt 2 (VString "hello"))))
  /\ code_of
       (RpcError VUndefined
          (JSON_print.stringify (errorReceipt 2 (VString "hello"))))
     = Some VUndefined.
Proof. repeat split; run. Qed.

Lemma C8_revert_branch_partial_witness :
  (exists e, run_translator (error_of (prefix ++ "Bad Gateway")) = Throw e
             /\ (e = SyntaxError \/ e = TypeError)
             /\ (forall code message, e <> RpcError code message)
             /\ (forall message, e <> Error message))
  /\ (exists e, run_translator (error_of (prefix ++ JSON_print.stringify no_log_payload))
                = Throw e
                /\ (e = SyntaxError \/ e = TypeError)
                /\ (forall code message, e <> RpcError code message)
                /\ (forall message, e <> Error message)).
Proof.
  split.
  - apply (C8_revert_branch_partial (H:=imports)
             (error_of (prefix ++ "Bad Gateway")) "Bad Gateway" eq_refl).
    left. run.
  - apply (C8_revert_branch_partial (H:=imports)
             (error_of (prefix ++ JSON_print.stringify no_log_payload))
             (JSON_print.stringify no_log_payload) eq_refl).
    right. right.
    exists no_log_payload, (VObject []).
    repeat split; run.
Defined.

Lemma C10_connection_error_has_no_code_witness :
  run_translator connection_error
  = Throw (Error "request to http://localhost:8119/ failed, reason: connect ECONNREFUSED 127.0.0.1:8119")
  /\ code_of (Error "request to http://localhost:8119/ failed, reason: connect ECONNREFUSED 127.0.0.1:8119")
     = None.
Proof.
  destruct (C10_connection_error_has_no_code (H:=imports) connection_error
              "request to http://localhost:8119/ failed, reason: connect ECONNREFUSED 127.0.0.1:8119"
              eq_refl ltac:(run))
    as (_ & Hraised & Hcode & _).
  split; [exact Hraised | exact Hcode].
Defined.

Lemma C6_forwarding_witness :
  pass_through (@ping imports) 0 [VNumber 1] = Return (VString "pong")
  /\ exists e,
       run_translator connection_error = Throw e
       /\ pass_through (@get_block imports) 0 [VString "0x2a"] = Throw e.
Proof.
  destruct (C6_forwarding (H:=imports)) as [_ Hobject].
  assert (Hpass : forall (m : method) (args : list value),
             @middleware imports m 0 args = m args) by reflexivity.
  split.
  - apply (Hobject Hpass "ping" (pass_through (@ping imports) 0)
             [VNumber 1]).
    simpl. left. reflexivity.
  - apply (Hobject Hpass "get_block"
             (pass_through (@get_block imports) 0) [VString "0x2a"]).
    simpl. right. right. right. left. reflexivity.
Defined.

End Instances.

(** * Further properties *)

(** ** More on buffers *)

Section MoreBufferFacts.

Import Buffer.

Lemma from_hex_app (bytes : Buffer.t) (tail : string) :
  Forall is_byte bytes ->
  from_hex (to_hex bytes ++ tail) = (bytes ++ from_hex tail)%list.
Proof.
  induction 1 as [| b rest Hb _ IH]; [reflexivity |].
  cbn [to_hex String.append from_hex].
  unfold is_byte in Hb.
  rewrite !unhex_hexdigit.
  - rewrite IH. cbn [app]. f_equal. pose proof (Z.div_mod b 16). lia.
  - apply Z.mod_pos_bound. lia.
  - split; [apply Z.div_pos; lia | apply Z.div_lt_upper_bound; lia].
Qed.

(** Bytes are determined by their little-endian integer. *)
Lemma little_endian_inj (l1 l2 : Buffer.t) :
  Forall is_byte l1 -> Forall is_byte l2 -> length l1 = length l2 ->
  little_endian l1 = little_endian l2 -> l1 = l2.
Proof.
  intros H1. revert l2.
  induction H1 as [| b1 rest1 Hb1 _ IH]; intros l2 H2 Hlen Heq.
  - destruct l2; [reflexivity | discriminate Hlen].
  - destruct H2 as [| b2 rest2 Hb2 H2]; [discriminate Hlen |].
    cbn [little_endian] in Heq. unfold is_byte in Hb1, Hb2.
    assert (Hb : b1 = b2) by lia. subst b2.
    f_equal. apply IH; [exact H2 | | lia].
    cbn [length] in Hlen. lia.
Qed.

(** Bytes are determined by their hexadecimal text. *)
Lemma to_hex_inj (l1 l2 : Buffer.t) :
  Forall is_byte l1 -> Forall is_byte l2 -> to_hex l1 = to_hex l2 -> l1 = l2.
Proof.
  intros H1 H2 Heq.
  rewrite <- (from_hex_to_hex l1 H1), <- (from_hex_to_hex l2 H2), Heq.
  reflexivity.
Qed.

Lemma hexdigit_lower (d : Z) : is_lower_hex (hexdigit d) = true.
Proof.
  destruct d as [| p | p]; [reflexivity | | reflexivity].
  do 4 (destruct p as [p | p |]; try reflexivity).
Qed.

Lemma to_hex_lower (bytes : Buffer.t) :
  string_forallb is_lower_hex (to_hex bytes) = true.
Proof.
  induction bytes as [| b rest IH]; [reflexivity |].
  cbn [to_hex string_forallb]. rewrite !hexdigit_lower, IH. reflexivity.
Qed.

Lemma take_split {A : Type} (l : list A) (n m : nat) :
  take (n + m) l = (take n l ++ take m (drop n l))%list.
Proof.
  revert l. induction n as [| n IH]; intros l; [reflexivity |].
  destruct l as [| x l]; cbn [Nat.add take drop app].
  - destruct m; reflexivity.
  - rewrite IH. reflexivity.
Qed.

(** Two adjacent slices make one. *)
Lemma slice_app (buf : Buffer.t) (a b c : nat) :
  (a <= b)%nat -> (b <= c)%nat ->
  (slice buf a b ++ slice buf b c)%list = slice buf a c.
Proof.
  intros Hab Hbc. unfold slice.
  replace (c - a)%nat with ((b - a) + (c - b))%nat by lia.
  replace (skipn b buf) with (skipn (b - a) (skipn a buf)).
  - symmetry. apply take_split.
  - rewrite drop_drop. f_equal. lia.
Qed.

Lemma slice_from_0 (buf : Buffer.t) (n : nat) : slice buf 0 n = take n buf.
Proof. unfold slice. rewrite Nat.sub_0_r. reflexivity. Qed.

End MoreBufferFacts.

(** ** More on the system-log decoder *)

Section MoreOnDecoder.
Context `{Imports}.

Import Buffer.

(** The decoder once the buffer is built, whatever it was built from. *)
Lemma parsePolyjuiceSystemLog_buffer (logItem data hex : value) (buf : Buffer.t) :
  get logItem "data" = Return data ->
  JS.slice data 2 = Return hex ->
  Buffer_from hex = Return buf ->
  parsePolyjuiceSystemLog logItem
  = if (length buf =? 40)%nat then Return (layout_record buf)
    else Throw (length_error buf).
Proof.
  intros Hdata Hslice Hbuf. unfold parsePolyjuiceSystemLog.
  rewrite Hdata, bind_Return, Hslice, bind_Return, Hbuf, bind_Return.
  change (8 + 8 + 16 + 4 + 4)%nat with 40%nat.
  destruct (length buf =? 40)%nat eqn:Hlen; [| reflexivity].
  apply Nat.eqb_eq in Hlen. cbv [negb].
  rewrite (readBigUInt64LE_spec _ 0), (readBigUInt64LE_spec _ 8),
    (readUInt32LE_spec _ 32) by lia.
  reflexivity.
Qed.

(** A returned record is the layout record of a 40-byte buffer. *)
Lemma parsePolyjuiceSystemLog_Return (logItem : value) (log : PolyjuiceSystemLog) :
  parsePolyjuiceSystemLog logItem = Return log ->
  exists buf, length buf = 40%nat /\ log = layout_record buf.
Proof.
  intros Hlog.
  destruct (get logItem "data") as [data | e] eqn:Hdata;
    [| unfold parsePolyjuiceSystemLog in Hlog;
       rewrite Hdata, bind_Throw in Hlog; discriminate Hlog].
  destruct (JS.slice data 2) as [hex | e] eqn:Hslice;
    [| unfold parsePolyjuiceSystemLog in Hlog;
       rewrite Hdata, bind_Return, Hslice, bind_Throw in Hlog;
       discriminate Hlog].
  destruct (Buffer_from hex) as [buf | e] eqn:Hbuf;
    [| unfold parsePolyjuiceSystemLog in Hlog;
       rewrite Hdata, bind_Return, Hslice, bind_Return, Hbuf, bind_Throw in Hlog;
       discriminate Hlog].
  rewrite (parsePolyjuiceSystemLog_buffer _ _ _ _ Hdata Hslice Hbuf) in Hlog.
  destruct (length buf =? 40)%nat eqn:Hlen; [| discriminate Hlog].
  exists buf. split; [apply Nat.eqb_eq, Hlen | congruence].
Qed.

(** X1. Encoding then decoding: a log item whose data is "0x" followed by
    the hexadecimal text of 40 bytes decodes to the record of exactly those
    bytes. *)
Theorem decoder_round_trip (logItem : value) (bytes : Buffer.t) :
  get logItem "data" = Return (VString ("0x" ++ to_hex bytes)) ->
  Forall is_byte bytes ->
  length bytes = 40%nat ->
  parsePolyjuiceSystemLog logItem = Return (layout_record bytes).
Proof.
  intros Hdata Hbytes Hlen.
  rewrite (parsePolyjuiceSystemLog_hex _ _ Hdata).
  change (buffer_of ("0x" ++ to_hex bytes)) with (from_hex (to_hex bytes)).
  rewrite (from_hex_to_hex _ Hbytes), Hlen. reflexivity.
Qed.

(** X2. The decoder validates neither end of the data: its first two
    characters are dropped whatever they are, and what follows the
    hexadecimal digits is ignored from the first pair that is not two
    hexadecimal digits on.  Such an item decodes, or fails, as the item
    with a clean "0x" text of the same bytes does. *)
Theorem decoder_ignores_prefix_and_tail (logItem clean : value) (a b : ascii)
  (bytes : Buffer.t) (tail : string) :
  get logItem "data"
  = Return (VString (String a (String b (to_hex bytes ++ tail)))) ->
  get clean "data" = Return (VString ("0x" ++ to_hex bytes)) ->
  Forall is_byte bytes ->
  from_hex tail = [] ->
  parsePolyjuiceSystemLog logItem = parsePolyjuiceSystemLog clean.
Proof.
  intros Hdata Hclean Hbytes Htail.
  rewrite (parsePolyjuiceSystemLog_hex _ _ Hdata),
    (parsePolyjuiceSystemLog_hex _ _ Hclean).
  change (buffer_of (String a (String b (to_hex bytes ++ tail))))
    with (from_hex (to_hex bytes ++ tail)).
  change (buffer_of ("0x" ++ to_hex bytes)) with (from_hex (to_hex bytes)).
  rewrite (from_hex_app _ _ Hbytes), Htail, app_nil_r.
  rewrite (from_hex_to_hex _ Hbytes). reflexivity.
Qed.

(** X3. The record keeps all of bytes 0 to 35: two log items with string
    data that decode to the same record have buffers that agree on their
    first 36 bytes. *)
Theorem decoder_determines_first_36_bytes (logItem1 logItem2 : value)
  (data1 data2 : string) (log : PolyjuiceSystemLog) :
  get logItem1 "data" = Return (VString data1) ->
  get logItem2 "data" = Return (VString data2) ->
  parsePolyjuiceSystemLog logItem1 = Return log ->
  parsePolyjuiceSystemLog logItem2 = Return log ->
  take 36 (buffer_of data1) = take 36 (buffer_of data2).
Proof.
  intros Hdata1 Hdata2 Hlog1 Hlog2.
  rewrite (parsePolyjuiceSystemLog_hex _ _ Hdata1) in Hlog1.
  rewrite (parsePolyjuiceSystemLog_hex _ _ Hdata2) in Hlog2.
  destruct (length (buffer_of data1) =? 40)%nat eqn:Hlen1; [| discriminate Hlog1].
  destruct (length (buffer_of data2) =? 40)%nat eqn:Hlen2; [| discriminate Hlog2].
  apply Nat.eqb_eq in Hlen1, Hlen2.
  injection Hlog1 as Hlog1. injection Hlog2 as Hlog2.
  rewrite <- Hlog2 in Hlog1. clear Hlog2.
  unfold layout_record in Hlog1.
  injection Hlog1 as Hgas Hcumulative Haddress Hstatus.
  pose proof (from_hex_is_byte (string_from 2 data1)) as Hbytes1.
  pose proof (from_hex_is_byte (string_from 2 data2)) as Hbytes2.
  fold (buffer_of data1) in Hbytes1. fold (buffer_of data2) in Hbytes2.
  assert (Hfield : forall start stop,
             (stop <= 40)%nat ->
             little_endian (slice (buffer_of data1) start stop)
             = little_endian (slice (buffer_of data2) start stop) ->
             slice (buffer_of data1) start stop
             = slice (buffer_of data2) start stop).
  { intros start stop Hstop Heq.
    apply little_endian_inj;
      [apply slice_is_byte, Hbytes1 | apply slice_is_byte, Hbytes2 | | exact Heq].
    rewrite !slice_length by lia. reflexivity. }
  apply (Hfield 0 8)%nat in Hgas; [| lia].
  apply (Hfield 8 16)%nat in Hcumulative; [| lia].
  apply (Hfield 32 36)%nat in Hstatus; [| lia].
  apply to_hex_inj in Haddress;
    [| apply slice_is_byte, Hbytes1 | apply slice_is_byte, Hbytes2].
  rewrite <- !slice_from_0.
  rewrite <- (slice_app (buffer_of data1) 0 32 36),
    <- (slice_app (buffer_of data1) 0 16 32),
    <- (slice_app (buffer_of data1) 0 8 16) by lia.
  rewrite <- (slice_app (buffer_of data2) 0 32 36),
    <- (slice_app (buffer_of data2) 0 16 32),
    <- (slice_app (buffer_of data2) 0 8 16) by lia.
  rewrite Hgas, Hcumulative, Haddress, Hstatus. reflexivity.
Qed.

(** X4. Every record the decoder returns has an address of 34 characters:
    "0x" and 32 lower-case hexadecimal digits, also when the data was
    written in upper case. *)
Theorem createdAddress_lower_case (logItem : value) (log : PolyjuiceSystemLog) :
  parsePolyjuiceSystemLog logItem = Return log ->
  String.prefix "0x" (createdAddress log) = true
  /\ String.length (createdAddress log) = 34%nat
  /\ string_forallb is_lower_hex (string_from 2 (createdAddress log)) = true.
Proof.
  intros Hlog.
  destruct (parsePolyjuiceSystemLog_Return _ _ Hlog) as (buf & Hlen & ->).
  split; [apply (prefix_app "0x") |]. split.
  - change (String.length (createdAddress (layout_record buf)))
      with (S (S (String.length (to_hex (slice buf 16 32))))).
    rewrite to_hex_length, slice_length by lia. reflexivity.
  - apply to_hex_lower.
Qed.

(** X5. A log item that is [undefined] or [null], or whose [data] is
    neither a string nor an array (absent, [null], a number, a boolean, an
    object), makes the decoder throw a TypeError, before any length is
    checked. *)
Theorem decoder_rejects_untyped_data (logItem : value) :
  (forall data, get logItem "data" = Return data ->
                is_string data = false /\ forall items, data <> VArray items) ->
  parsePolyjuiceSystemLog logItem = Throw TypeError.
Proof.
  intros Huntyped. unfold parsePolyjuiceSystemLog.
  destruct (get logItem "data") as [data | e] eqn:Hdata.
  - destruct (Huntyped data eq_refl) as [Hstring Harray].
    rewrite bind_Return.
    destruct data as [| | b | n | s | items | fields];
      try reflexivity; [discriminate Hstring |].
    contradiction (Harray items eq_refl).
  - rewrite bind_Throw.
    destruct logItem; cbn in Hdata; congruence.
Qed.

(** X6. When the data is an array the decoder drops its first two entries
    and decodes the bytes [Buffer.from] makes of the others: 40 bytes give
    their record, another number of bytes the length error, and an error of
    the conversion is passed on. *)
Theorem decoder_array_data (logItem : value) (items : list value) :
  get logItem "data" = Return (VArray items) ->
  (forall buf, Buffer_from_array (skipn 2 items) = Return buf ->
               length buf = 40%nat ->
               parsePolyjuiceSystemLog logItem = Return (layout_record buf))
  /\ (forall buf, Buffer_from_array (skipn 2 items) = Return buf ->
                  length buf <> 40%nat ->
                  parsePolyjuiceSystemLog logItem = Throw (length_error buf))
  /\ (forall e, Buffer_from_array (skipn 2 items) = Throw e ->
                parsePolyjuiceSystemLog logItem = Throw e).
Proof.
  intros Hdata. repeat split.
  - intros buf Hbuf Hlen.
    rewrite (parsePolyjuiceSystemLog_buffer logItem (VArray items)
               (VArray (skipn 2 items)) buf Hdata eq_refl Hbuf), Hlen.
    reflexivity.
  - intros buf Hbuf Hlen.
    rewrite (parsePolyjuiceSystemLog_buffer logItem (VArray items)
               (VArray (skipn 2 items)) buf Hdata eq_refl Hbuf).
    apply Nat.eqb_neq in Hlen. rewrite Hlen. reflexivity.
  - intros e Hthrow. unfold parsePolyjuiceSystemLog.
    rewrite Hdata, bind_Return.
    change (JS.slice (VArray items) 2) with (Return (VArray (skipn 2 items))).
    rewrite bind_Return.
    change (Buffer_from (VArray (skipn 2 items)))
      with (Buffer_from_array (skipn 2 items)).
    rewrite Hthrow, bind_Throw. reflexivity.
Qed.

End MoreOnDecoder.

(** ** More on the error translator *)

Section MoreOnTranslator.
Context `{Imports}.

Import Buffer.

(** The revert branch once the payload is parsed and its log found. *)
Lemma parseError_at_log (error : value) (rest : string) (err data last_log : value) :
  get error "message" = Return (VString (prefix ++ rest)) ->
  JSON_parse rest = Some err ->
  get err "data" = Return data ->
  get data "last_log" = Return last_log ->
  parseError error
  = (polyjuiceSystemLog ← parsePolyjuiceSystemLog last_log;
     return_data ← get data "return_data";
     encoded ← substring return_data 10;
     statusReason ← decodeParameter "string" encoded;
     code ← get err "code";
     Throw (RpcError code
              (JSON_stringify
                 (errorReceipt (statusCode polyjuiceSystemLog) statusReason)))).
Proof.
  intros Hmsg Hparse Hdata Hlog.
  unfold parseError.
  rewrite Hmsg, bind_Return, prefix_app, string_from_app.
  unfold parse. rewrite Hparse, bind_Return, Hdata, bind_Return, Hlog, bind_Return.
  reflexivity.
Qed.

(** The revert branch once the log is decoded and the return data found. *)
Lemma parseError_at_return_data (error : value) (rest : string)
  (err data last_log : value) (hex return_data : string) :
  get error "message" = Return (VString (prefix ++ rest)) ->
  JSON_parse rest = Some err ->
  get err "data" = Return data ->
  get data "last_log" = Return last_log ->
  get last_log "data" = Return (VString hex) ->
  length (buffer_of hex) = 40%nat ->
  get data "return_data" = Return (VString return_data) ->
  parseError error
  = (statusReason ← decodeParameter "string" (string_from 10 return_data);
     code ← get err "code";
     Throw (RpcError code
              (JSON_stringify
                 (errorReceipt (little_endian (slice (buffer_of hex) 32 36))
                    statusReason)))).
Proof.
  intros Hmsg Hparse Hdata Hlog Hhex Hlen Hret.
  rewrite (parseError_at_log _ _ _ _ _ Hmsg Hparse Hdata Hlog).
  rewrite (parsePolyjuiceSystemLog_hex _ _ Hhex), Hlen. cbn [Nat.eqb].
  rewrite bind_Return, Hret, bind_Return.
  change (substring (VString return_data) 10)
    with (Return (string_from 10 return_data)).
  rewrite bind_Return. reflexivity.
Qed.

(** X7. An error that is [undefined] or [null], or whose [message] is not a
    string, is not classified at all: the translator throws a TypeError. *)
Theorem translator_needs_string_message (error : value) :
  (forall text, get error "message" <> Return (VString text)) ->
  parseError error = Throw TypeError.
Proof.
  intros Hnot. unfold parseError.
  destruct (get error "message") as [message | e] eqn:Hmsg.
  - rewrite bind_Return.
    destruct message as [| | b | n | text | items | fields]; try reflexivity.
    contradiction (Hnot text eq_refl).
  - rewrite bind_Throw. destruct error; cbn in Hmsg; congruence.
Qed.

(** X8. A revert whose system log is not 40 bytes long is reported as the
    plain error of the decoder's length check, whatever the return data and
    the code are: the caller gets an error without code, whose text is not
    the upstream's message. *)
Theorem revert_with_bad_log_length (error : value) (rest : string)
  (err data last_log : value) (hex : string) :
  get error "message" = Return (VString (prefix ++ rest)) ->
  JSON_parse rest = Some err ->
  get err "data" = Return data ->
  get data "last_log" = Return last_log ->
  get last_log "data" = Return (VString hex) ->
  length (buffer_of hex) <> 40%nat ->
  parseError error = Throw (length_error (buffer_of hex))
  /\ code_of (length_error (buffer_of hex)) = None
  /\ message_of (length_error (buffer_of hex)) <> Some (prefix ++ rest).
Proof.
  intros Hmsg Hparse Hdata Hlog Hhex Hlen. split; [| split].
  - rewrite (parseError_at_log _ _ _ _ _ Hmsg Hparse Hdata Hlog).
    rewrite (parsePolyjuiceSystemLog_hex _ _ Hhex).
    apply Nat.eqb_neq in Hlen. rewrite Hlen. reflexivity.
  - reflexivity.
  - unfold length_error, message_of, prefix.
    cbn [String.append]. intros Heq. discriminate Heq.
Qed.

(** X9. After the log is decoded the two steps on the return data can still
    fail: return data that is absent or not a string gives a TypeError, and
    an error thrown by the ABI coder is passed on unchanged.  In neither
    case is the structured revert error raised. *)
Theorem revert_with_bad_return_data (error : value) (rest : string)
  (err data last_log : value) (hex : string) :
  get error "message" = Return (VString (prefix ++ rest)) ->
  JSON_parse rest = Some err ->
  get err "data" = Return data ->
  get data "last_log" = Return last_log ->
  get last_log "data" = Return (VString hex) ->
  length (buffer_of hex) = 40%nat ->
  (forall return_data,
      get data "return_data" = Return return_data ->
      is_string return_data = false ->
      parseError error = Throw TypeError)
  /\ (forall return_data e,
        get data "return_data" = Return (VString return_data) ->
        decodeParameter "string" (string_from 10 return_data) = Throw e ->
        parseError error = Throw e).
Proof.
  intros Hmsg Hparse Hdata Hlog Hhex Hlen. split.
  - intros return_data Hret Hstring.
    rewrite (parseError_at_log _ _ _ _ _ Hmsg Hparse Hdata Hlog).
    rewrite (parsePolyjuiceSystemLog_hex _ _ Hhex), Hlen. cbn [Nat.eqb].
    rewrite bind_Return, Hret, bind_Return.
    destruct return_data; try reflexivity. discriminate Hstring.
  - intros return_data e Hret Habi.
    rewrite (parseError_at_return_data _ _ _ _ _ _ _ Hmsg Hparse Hdata Hlog
               Hhex Hlen Hret).
    rewrite Habi, bind_Throw. reflexivity.
Qed.

(** X10. The code of the revert error is the payload's [code] property as
    it is, without any check: a payload object without [code] gives an
    error whose code is [undefined]. *)
Theorem revert_code_is_unchecked (error : value) (rest : string)
  (fields : list (string * value)) (data last_log reason : value)
  (hex return_data : string) :
  get error "message" = Return (VString (prefix ++ rest)) ->
  JSON_parse rest = Some (VObject fields) ->
  get (VObject fields) "data" = Return data ->
  get data "last_log" = Return last_log ->
  get last_log "data" = Return (VString hex) ->
  length (buffer_of hex) = 40%nat ->
  get data "return_data" = Return (VString return_data) ->
  decodeParameter "string" (string_from 10 return_data) = Return reason ->
  parseError error
  = Throw (RpcError
             (match lookup_field "code" fields with
              | Some code => code
              | None => VUndefined
              end)
             (JSON_stringify
                (errorReceipt (little_endian (slice (buffer_of hex) 32 36))
                   reason))).
Proof.
  intros Hmsg Hparse Hdata Hlog Hhex Hlen Hret Habi.
  rewrite (parseError_at_return_data _ _ _ _ _ _ _ Hmsg Hparse Hdata Hlog
             Hhex Hlen Hret).
  rewrite Habi, bind_Return. reflexivity.
Qed.

(** X11. Of the system log only the status code reaches the caller: two
    reverts with the same code and return data, whose 40-byte logs agree on
    bytes 32 to 35, are translated to the same error, whatever their gas
    figures and addresses are. *)
Theorem revert_shows_status_code_only (error1 error2 : value)
  (rest1 rest2 : string) (err1 err2 data1 data2 last_log1 last_log2 code : value)
  (hex1 hex2 return_data : string) :
  get error1 "message" = Return (VString (prefix ++ rest1)) ->
  get error2 "message" = Return (VString (prefix ++ rest2)) ->
  JSON_parse rest1 = Some err1 ->
  JSON_parse rest2 = Some err2 ->
  get err1 "code" = Return code ->
  get err2 "code" = Return code ->
  get err1 "data" = Return data1 ->
  get err2 "data" = Return data2 ->
  get data1 "last_log" = Return last_log1 ->
  get data2 "last_log" = Return last_log2 ->
  get last_log1 "data" = Return (VString hex1) ->
  get last_log2 "data" = Return (VString hex2) ->
  length (buffer_of hex1) = 40%nat ->
  length (buffer_of hex2) = 40%nat ->
  slice (buffer_of hex1) 32 36 = slice (buffer_of hex2) 32 36 ->
  get data1 "return_data" = Return (VString return_data) ->
  get data2 "return_data" = Return (VString return_data) ->
  parseError error1 = parseError error2.
Proof.
  intros Hmsg1 Hmsg2 Hparse1 Hparse2 Hcode1 Hcode2 Hdata1 Hdata2 Hlog1 Hlog2
    Hhex1 Hhex2 Hlen1 Hlen2 Hstatus Hret1 Hret2.
  rewrite (parseError_at_return_data _ _ _ _ _ _ _ Hmsg1 Hparse1 Hdata1 Hlog1
             Hhex1 Hlen1 Hret1).
  rewrite (parseError_at_return_data _ _ _ _ _ _ _ Hmsg2 Hparse2 Hdata2 Hlog2
             Hhex2 Hlen2 Hret2).
  rewrite Hcode1, Hcode2, Hstatus. reflexivity.
Qed.

(** X16. The translator reads nothing of the caught error but its message:
    two errors with the same message are translated alike, whatever other
    properties (a code, a type, data) they carry. *)
Theorem translator_reads_message_only (error1 error2 : value) :
  get error1 "message" = get error2 "message" ->
  parseError error1 = parseError error2.
Proof.
  intros Hsame. unfold parseError. rewrite Hsame. reflexivity.
Qed.

End MoreOnTranslator.

(** ** More on the wrapper class *)

Section MoreOnWrapper.
Context `{Imports}.

(** Every method of the class is the try/catch around the upstream method
    of its name. *)
Lemma Gw_prototype_forward (name : string) (m : method) (args : list value) :
  In (name, m) Gw_prototype -> m args = forward (rpc ("gw_" ++ name) args).
Proof.
  intros Hin. unfold Gw_prototype in Hin. simpl In in Hin.
  repeat (destruct Hin as [Heq | Hin]; [injection Heq as <- <-; reflexivity |]).
  contradiction.
Qed.

(** X12. A method returns a value only when the upstream call was fulfilled
    with that value, and throws only when the upstream call was rejected,
    with what the translator throws for the rejection: no result is made up
    and no failure is swallowed. *)
Theorem method_outcome_comes_from_upstream (name : string) (m : method)
  (args : list value) :
  In (name, m) Gw_prototype ->
  (forall v, m args = Return v <-> rpc ("gw_" ++ name) args = Fulfilled v)
  /\ (forall e, m args = Throw e
                <-> exists error, rpc ("gw_" ++ name) args = Rejected error
                                  /\ parseError error = Throw e).
Proof.
  intros Hin. rewrite (Gw_prototype_forward name m args Hin).
  pose proof (forward_spec (rpc ("gw_" ++ name) args)) as Hspec.
  destruct (rpc ("gw_" ++ name) args) as [result | error].
  - split.
    + intros v. rewrite Hspec. split; congruence.
    + intros e. rewrite Hspec. split; [discriminate |].
      intros (error & Habs & _). discriminate Habs.
  - destruct Hspec as (e0 & Htranslated & Hthrown). split.
    + intros v. rewrite Hthrown. split; discriminate.
    + intros e. rewrite Hthrown. split.
      * intros Heq. exists error. split; [reflexivity | congruence].
      * intros (error' & Heq & Htranslated').
        injection Heq as <-. congruence.
Qed.

(** X13. What a caller sees when the upstream call fails with an error
    whose message is a string other than a revert: the same text in a plain
    error when it starts with "request to", and otherwise the same text in
    an error with the request-error code. *)
Theorem method_failure_keeps_message (name : string) (m : method)
  (args : list value) (error : value) (text : string) :
  In (name, m) Gw_prototype ->
  rpc ("gw_" ++ name) args = Rejected error ->
  get error "message" = Return (VString text) ->
  String.prefix prefix text = false ->
  exists e,
    m args = Throw e
    /\ message_of e = Some text
    /\ (String.prefix "request to" text = true -> e = Error text)
    /\ (String.prefix "request to" text = false ->
        e = RpcError (VNumber GW_RPC_REQUEST_ERROR) text).
Proof.
  intros Hin Hrejected Hmsg Hpre.
  rewrite (Gw_prototype_forward name m args Hin), Hrejected.
  unfold forward.
  destruct (String.prefix "request to" text) eqn:Hreq.
  - rewrite (parseError_connection _ _ Hmsg Hreq).
    exists (Error text).
    split; [reflexivity |]. split; [reflexivity |]. split.
    + intros _. reflexivity.
    + intros Habs. discriminate Habs.
  - rewrite (parseError_default _ _ Hmsg Hpre Hreq).
    exists (RpcError (VNumber GW_RPC_REQUEST_ERROR) text).
    split; [reflexivity |]. split; [reflexivity |]. split.
    + intros Habs. discriminate Habs.
    + intros _. reflexivity.
Qed.

End MoreOnWrapper.

(** ** The tracing bootstrap scripts *)

Section Bootstrap.

Import Telemetry.

(** X14. On SIGTERM trace.js (and its copy after the Godwoken module) and
    opentelemetry.js log one line and then end the process with exit code
    0, whether the shutdown of the SDK succeeded or failed; after a failure
    the logged line carries the reason.  opentelemetry_trace.js is not
    covered. *)
Theorem sigterm_always_exits_with_0 (sdk_shutdown : settled) :
  Forall (fun on_SIGTERM : settled -> chain =>
            exists line,
              on_SIGTERM sdk_shutdown = ([Log line; Exit 0], None)
              /\ (forall reason, sdk_shutdown = Rejected reason -> In reason line)
              /\ (forall v, sdk_shutdown = Fulfilled v -> length line = 1%nat))
    [Trace.on_SIGTERM; Opentelemetry.on_SIGTERM].
Proof.
  repeat constructor; destruct sdk_shutdown as [v | reason];
    eexists; (split; [reflexivity |]); split;
    try (intros ? Heq; discriminate Heq);
    try (intros ? Heq; injection Heq as <-; cbn; auto);
    intros; reflexivity.
Qed.

(** X15. In trace.js (and its copy after the Godwoken module) and in
    opentelemetry.js, starting the SDK never leaves a rejection unhandled
    and never ends the process: the script logs one line and the promise of
    its chain is fulfilled, also when [sdk.start()] was rejected.
    opentelemetry_trace.js is not covered. *)
Theorem start_failure_is_only_logged (sdk_start : settled) :
  Forall (fun start : settled -> chain =>
            exists line,
              start sdk_start = ([Log line], Some (Fulfilled VUndefined))
              /\ (forall reason, sdk_start = Rejected reason -> In reason line))
    [Trace.start; Opentelemetry.start].
Proof.
  repeat constructor; destruct sdk_start as [v | reason];
    eexists; (split; [reflexivity |]);
    intros ? Heq; first [discriminate Heq | injection Heq as <-; cbn; auto].
Qed.

End Bootstrap.

(** ** The further properties at the reference implementation *)

Section MoreInstances.

Import Buffer Reference Samples.

Local Abbreviation run_decoder := (@parsePolyjuiceSystemLog imports).
Local Abbreviation run_translator := (@parseError imports).

Local Ltac run := vm_compute; first [reflexivity | discriminate].

Lemma log_bytes_are_bytes : Forall is_byte log_bytes.
Proof. apply (from_hex_is_byte (string_from 2 log_data)). Qed.

Lemma decoder_round_trip_witness :
  run_decoder (log_item log_data) = Return (layout_record log_bytes).
Proof.
  apply (decoder_round_trip (H:=imports) (log_item log_data) log_bytes).
  - run.
  - exact log_bytes_are_bytes.
  - run.
Defined.

Lemma decoder_ignores_prefix_and_tail_witness :
  run_decoder (log_item noisy_log_data) = run_decoder (log_item log_data).
Proof.
  apply (decoder_ignores_prefix_and_tail (H:=imports) (log_item noisy_log_data)
           (log_item log_data) "#" "#" log_bytes "; end of log").
  - run.
  - run.
  - exact log_bytes_are_bytes.
  - run.
Defined.

Lemma decoder_determines_first_36_bytes_witness :
  take 36 (buffer_of log_data) = take 36 (buffer_of log_data').
Proof.
  apply (decoder_determines_first_36_bytes (H:=imports) (log_item log_data)
           (log_item log_data') log_data log_data' (layout_record log_bytes));
    run.
Defined.

Lemma createdAddress_lower_case_witness :
  run_decoder (log_item shouted_log_data) = Return (layout_record log_bytes)
  /\ String.prefix "0x" (createdAddress (layout_record log_bytes)) = true
  /\ String.length (createdAddress (layout_record log_bytes)) = 34%nat
  /\ string_forallb is_lower_hex
       (string_from 2 (createdAddress (layout_record log_bytes))) = true.
Proof.
  assert (Hlog : run_decoder (log_item shouted_log_data)
                 = Return (layout_record log_bytes)) by run.
  split; [exact Hlog |].
  exact (createdAddress_lower_case (H:=imports) (log_item shouted_log_data)
           (layout_record log_bytes) Hlog).
Defined.

Lemma decoder_rejects_untyped_data_witness :
  run_decoder VNull = Throw TypeError
  /\ run_decoder (VObject [("account_id", VString "0x2")]) = Throw TypeError.
Proof.
  split.
  - apply (decoder_rejects_untyped_data (H:=imports) VNull).
    intros data Hdata. discriminate Hdata.
  - apply (decoder_rejects_untyped_data (H:=imports)
             (VObject [("account_id", VString "0x2")])).
    intros data Hdata. vm_compute in Hdata. injection Hdata as <-.
    split; [reflexivity | intros items Habs; discriminate Habs].
Defined.

Lemma decoder_array_data_witness :
  run_decoder array_log_item = Return (layout_record log_bytes).
Proof.
  destruct (decoder_array_data (H:=imports) array_log_item
              (VNumber 48 :: VNumber 120 :: map VNumber log_bytes) eq_refl)
    as (Hdecoded & _ & _).
  apply Hdecoded; run.
Defined.

Lemma translator_needs_string_message_witness :
  run_translator (VString "socket hang up") = Throw TypeError
  /\ run_translator VUndefined = Throw TypeError.
Proof.
  split.
  - apply (translator_needs_string_message (H:=imports)).
    intros text Habs. discriminate Habs.
  - apply (translator_needs_string_message (H:=imports)).
    intros text Habs. discriminate Habs.
Defined.

Lemma revert_with_bad_log_length_witness :
  run_translator
    (error_of (prefix ++ JSON_print.stringify short_log_payload))
  = Throw (Error "invalid system log raw data length: 39").
Proof.
  apply (revert_with_bad_log_length (H:=imports)
           (error_of (prefix ++ JSON_print.stringify short_log_payload))
           (JSON_print.stringify short_log_payload) short_log_payload
           (VObject [("last_log", log_item short_log_data)])
           (log_item short_log_data) short_log_data);
    run.
Defined.

Lemma revert_with_bad_return_data_witness :
  run_translator
    (error_of (prefix ++ JSON_print.stringify no_return_payload))
  = Throw TypeError
  /\ run_translator
       (error_of (prefix ++ JSON_print.stringify empty_return_payload))
     = Throw (Error "Returned values aren't valid, did it run Out of Gas?").
Proof.
  split.
  - destruct (revert_with_bad_return_data (H:=imports)
                (error_of (prefix ++ JSON_print.stringify no_return_payload))
                (JSON_print.stringify no_return_payload) no_return_payload
                (VObject [("last_log", log_item log_data)])
                (log_item log_data) log_data
                ltac:(run) ltac:(run) ltac:(run) ltac:(run) ltac:(run) ltac:(run))
      as [Hmissing _].
    apply (Hmissing VUndefined); run.
  - destruct (revert_with_bad_return_data (H:=imports)
                (error_of (prefix ++ JSON_print.stringify empty_return_payload))
                (JSON_print.stringify empty_return_payload) empty_return_payload
                (VObject [("last_log", log_item log_data);
                          ("return_data", VString "0x")])
                (log_item log_data) log_data
                ltac:(run) ltac:(run) ltac:(run) ltac:(run) ltac:(run) ltac:(run))
      as [_ Hcoder].
    apply (Hcoder "0x"); run.
Defined.

Lemma revert_code_is_unchecked_witness :
  run_translator (error_of (prefix ++ JSON_print.stringify no_code_payload))
  = Throw (RpcError VUndefined
             (JSON_print.stringify (errorReceipt 2 (VString "hello")))).
Proof.
  pose proof (revert_code_is_unchecked (H:=imports)
                (error_of (prefix ++ JSON_print.stringify no_code_payload))
                (JSON_print.stringify no_code_payload)
                [("data", revert_data)] revert_data (log_item log_data)
                (VString "hello") log_data ("0x08c379a0" ++ hello_abi)
                ltac:(run) ltac:(run) ltac:(run) ltac:(run) ltac:(run)
                ltac:(run) ltac:(run) ltac:(run)) as Hraised.
  vm_compute in Hraised. vm_compute. exact Hraised.
Defined.

Lemma revert_shows_status_code_only_witness :
  run_translator (error_of revert_message)
  = run_translator
      (error_of (prefix ++ JSON_print.stringify other_revert_payload)).
Proof.
  apply (revert_shows_status_code_only (H:=imports)
           (error_of revert_message)
           (error_of (prefix ++ JSON_print.stringify other_revert_payload))
           (JSON_print.stringify revert_payload)
           (JSON_print.stringify other_revert_payload)
           revert_payload other_revert_payload
           revert_data
           (VObject [("last_log", log_item other_log_data);
                     ("return_data", VString ("0x08c379a0" ++ hello_abi))])
           (log_item log_data) (log_item other_log_data) (VNumber 3)
           log_data other_log_data ("0x08c379a0" ++ hello_abi));
    run.
Defined.

Lemma translator_reads_message_only_witness :
  run_translator fetch_error = run_translator connection_error.
Proof.
  apply (translator_reads_message_only (H:=imports) fetch_error connection_error).
  run.
Defined.

Lemma method_outcome_comes_from_upstream_witness :
  @ping imports [] = Return (VString "pong").
Proof.
  apply (proj1 (method_outcome_comes_from_upstream (H:=imports) "ping"
                  (@ping imports) [] (or_introl eq_refl))).
  run.
Defined.

Lemma method_failure_keeps_message_witness :
  exists e,
    @get_block imports [VString "0x2a"] = Throw e
    /\ message_of e
       = Some "request to http://localhost:8119/ failed, reason: connect ECONNREFUSED 127.0.0.1:8119".
Proof.
  destruct (method_failure_keeps_message (H:=imports) "get_block"
              (@get_block imports) [VString "0x2a"] connection_error
              "request to http://localhost:8119/ failed, reason: connect ECONNREFUSED 127.0.0.1:8119"
              ltac:(simpl; tauto) ltac:(run) ltac:(run) ltac:(run))
    as (e & Hthrown & Hmessage & _).
  exists e. split; [exact Hthrown | exact Hmessage].
Defined.

End MoreInstances.
